(** * Interest calculator: the period resolver and the interest engine

    A shallow embedding of the calculation core of the interest calculator
    web application, in its three shells:

    - [ScriptNew]: the local-storage shell with the add / edit-and-calculate
      flow (first program of [script_new.js]);
    - [ScriptLegacy]: the two-step form shell (second program of
      [script_new.js]), which creates a record only when it calculates;
    - [ScriptDb]: the database-backed shell ([static/script_db.js]; the
      unnamed earlier revision has the same calculation, without the
      interest-type field).

    Numbers.  A JavaScript number is modelled as [NaN] or a real number:
    the rounding error of binary64 arithmetic, overflow to an infinity and
    the sign of zero are outside the model.  Where the order or the
    equality of two computed numbers is at stake, which rounding can
    change, the same expressions are evaluated in binary64 in [B64].

    Dates.  The value of a date input is the empty string or a valid
    [YYYY-MM-DD] string; it is modelled as [option Date].  A [Date] object
    built from such a string is modelled by its calendar fields, which are
    the fields [getFullYear], [getMonth] and [getDate] report on a host
    whose clock is at or east of UTC, and two [Date] objects compare as
    calendar dates.  On a host west of UTC the getters report the day
    before the date that is written (see [local_date]); a [Date] of the
    model then stands for that local date. *)

From Stdlib Require Import Reals Lra Lia ZArith List String Ascii Bool.
From Stdlib Require Import Zfloor.
From Stdlib Require Floats.
Import ListNotations.

Local Open Scope R_scope.

(** ** JavaScript numbers *)

Inductive number : Type :=
  | NaN
  | Num (x : R).

Declare Scope js_scope.
Delimit Scope js_scope with js.
Bind Scope js_scope with number.

Definition lift2 (f : R -> R -> R) (a b : number) : number :=
  match a, b with
  | Num x, Num y => Num (f x y)
  | _, _ => NaN
  end.

Definition js_add : number -> number -> number := lift2 Rplus.
Definition js_sub : number -> number -> number := lift2 Rminus.
Definition js_mul : number -> number -> number := lift2 Rmult.

(** The sources divide by the literals [30] and [100] only; a division by
    zero (an infinity or [NaN] in JavaScript) never happens. *)
Definition js_div : number -> number -> number := lift2 Rdiv.

Infix "+" := js_add : js_scope.
Infix "-" := js_sub : js_scope.
Infix "*" := js_mul : js_scope.
Infix "/" := js_div : js_scope.

(** [a < b] and [a <= b]: false as soon as one side is [NaN]. *)
Definition js_lt (a b : number) : bool :=
  match a, b with
  | Num x, Num y => if Rlt_dec x y then true else false
  | _, _ => false
  end.

Definition js_le (a b : number) : bool :=
  match a, b with
  | Num x, Num y => if Rle_dec x y then true else false
  | _, _ => false
  end.

Infix "<?" := js_lt (at level 70) : js_scope.
Infix "<=?" := js_le (at level 70) : js_scope.

(** [!v] on a number: true on [NaN] and on zero. *)
Definition js_not (v : number) : bool :=
  match v with
  | NaN => true
  | Num x => if Req_dec_T x 0 then true else false
  end.

(** [Math.round]: the nearest integer, a half rounded up. *)
Definition Math_round (v : number) : number :=
  match v with
  | NaN => NaN
  | Num x => Num (IZR (Zfloor (x + / 2)))
  end.

(** [Math.pow] on finite arguments and [NaN].  Zero to a negative power is
    an infinity in JavaScript, which the model does not have: [NaN] stands
    in for it (the shells never reach that case, the exponent being checked
    positive before the call). *)
Definition Math_pow (base exponent : number) : number :=
  match exponent with
  | NaN => NaN
  | Num y =>
      if Req_dec_T y 0 then Num 1
      else
        match base with
        | NaN => NaN
        | Num x =>
            if Rlt_dec 0 x then Num (Rpower x y)
            else if Req_dec_T x 0 then (if Rlt_dec 0 y then Num 0 else NaN)
            else if Req_dec_T y (IZR (Zfloor y)) then Num (powerRZ x (Zfloor y))
            else NaN
        end
  end.

(** ** Strings of the form *)

Definition is_space (c : ascii) : bool :=
  let n := nat_of_ascii c in
  Nat.eqb n 32 || (Nat.leb 9 n && Nat.leb n 13).

Fixpoint trimStart (s : string) : string :=
  match s with
  | EmptyString => EmptyString
  | String c s' => if is_space c then trimStart s' else s
  end.

Fixpoint trimEnd (s : string) : string :=
  match s with
  | EmptyString => EmptyString
  | String c s' =>
      match trimEnd s' with
      | EmptyString => if is_space c then EmptyString else String c EmptyString
      | t => String c t
      end
  end.

(** [String.prototype.trim], on the ASCII white space. *)
Definition trim (s : string) : string := trimEnd (trimStart s).

(** [!s] on a string: true on the empty string. *)
Definition str_not (s : string) : bool :=
  match s with
  | EmptyString => true
  | String _ _ => false
  end.

(** ** Calendar dates *)

Record Date : Type := mkDate {
  year : Z;    (* four-digit year *)
  month : Z;   (* 1..12, as written in the date string *)
  day : Z      (* 1..31 *)
}.

Definition getFullYear (d : Date) : Z := year d.
Definition getMonth (d : Date) : Z := (month d - 1)%Z.
Definition getDate (d : Date) : Z := day d.

Definition leap (y : Z) : bool :=
  ((y mod 4 =? 0) && negb (y mod 100 =? 0) || (y mod 400 =? 0))%Z.

Definition days_in_month (y m : Z) : Z :=
  if (m =? 2)%Z then (if leap y then 29 else 28)%Z
  else if ((m =? 4) || (m =? 6) || (m =? 9) || (m =? 11))%Z then 30%Z
  else 31%Z.

(** The dates a date input can hold. *)
Definition valid_date (d : Date) : bool :=
  ((1 <=? month d) && (month d <=? 12) &&
   (1 <=? day d) && (day d <=? days_in_month (year d) (month d)))%Z.

(** [a < b] on two [Date] objects: [a] is an earlier calendar date. *)
Definition Date_lt (a b : Date) : bool :=
  ((year a <? year b)
   || ((year a =? year b)
       && ((month a <? month b)
           || ((month a =? month b) && (day a <? day b)))))%Z.

Definition previous_day (d : Date) : Date :=
  if (1 <? day d)%Z then mkDate (year d) (month d) (day d - 1)
  else if (1 <? month d)%Z then
    mkDate (year d) (month d - 1) (days_in_month (year d) (month d - 1))
  else mkDate (year d - 1) 12 31.

(** The calendar fields that [getFullYear], [getMonth] and [getDate] report
    for [new Date("YYYY-MM-DD")]: the string is read as midnight UTC, which
    on a host west of UTC is still the evening of the day before. *)
Definition local_date (west_of_UTC : bool) (written : Date) : Date :=
  if west_of_UTC then previous_day written else written.

(** ** Period resolver: [monthsBetween] (the same in the three shells) *)

Definition monthsBetween (startDate endDate : Date) : R :=
  if Date_lt endDate startDate then 0
  else
    let years := (getFullYear endDate - getFullYear startDate)%Z in
    let months := (getMonth endDate - getMonth startDate)%Z in
    let totalMonths := IZR (years * 12 + months) in
    let dayDiff := (getDate endDate - getDate startDate)%Z in
    totalMonths + IZR dayDiff / 30.

(** ** Interest engine *)

Record Results : Type := mkResults {
  res_simpleInterest : number;
  res_compoundInterest : number;
  res_totalSimple : number;
  res_totalCompound : number
}.

(** The formulas of [calculateInterest] in [script_new.js] (both programs):
    full precision, rounded only when displayed. *)
Definition interest (principal rate months : number) : Results :=
  let simpleInterest := (principal * (rate / Num 100) * months)%js in
  let compoundInterest :=
    (principal * (Math_pow (Num 1 + rate / Num 100) months - Num 1))%js in
  let totalSimple := (principal + simpleInterest)%js in
  let totalCompound := (principal + compoundInterest)%js in
  mkResults simpleInterest compoundInterest totalSimple totalCompound.

(** [Math.round(v * 100) / 100]. *)
Definition round2 (v : number) : number :=
  (Math_round (v * Num 100) / Num 100)%js.

(** [round2] on a real number. *)
Definition round2R (x : R) : R := IZR (Zfloor (x * 100 + / 2)) / 100.

(** The formulas of [calculateInterest] in the database-backed shells:
    every value rounded to two decimals as soon as it is computed. *)
Definition interest_rounded (principal rate months : number) : Results :=
  let simpleInterest := round2 (principal * (rate / Num 100) * months)%js in
  let compoundInterest :=
    round2 (principal * (Math_pow (Num 1 + rate / Num 100) months - Num 1))%js in
  let totalSimple := round2 (principal + simpleInterest)%js in
  let totalCompound := round2 (principal + compoundInterest)%js in
  mkResults simpleInterest compoundInterest totalSimple totalCompound.

(** ** The same expressions in binary64 *)

Module B64.
Import Floats.
Local Open Scope float_scope.
#[local] Set Warnings "-inexact-float".

(** A whole number as a binary64 number (exact below [2^53]). *)
Definition of_Z (z : Z) : float :=
  match z with
  | Z0 => 0
  | Zpos _ => of_uint63 (Uint63.of_Z z)
  | Zneg p => - of_uint63 (Uint63.of_Z (Zpos p))
  end.

Definition monthsBetween (startDate endDate : Date) : float :=
  if Date_lt endDate startDate then 0
  else
    let years := (getFullYear endDate - getFullYear startDate)%Z in
    let months := (getMonth endDate - getMonth startDate)%Z in
    let totalMonths := of_Z (years * 12 + months) in
    let dayDiff := (getDate endDate - getDate startDate)%Z in
    totalMonths + of_Z dayDiff / 30.

(** [Math.pow] where its value does not depend on the engine: the cases the
    language fixes (an exponent that is [NaN] or zero, a base that is
    [NaN]) and the base one with a finite exponent, where the power is
    exactly one.  Everywhere else the language asks for an approximation
    that it leaves to the engine: [None]. *)
Definition Math_pow (base exponent : float) : option float :=
  if is_nan exponent then Some nan
  else if exponent =? 0 then Some 1
  else if is_nan base then Some nan
  else if (base =? 1) && is_finite exponent then Some 1
  else None.

Record Results : Type := mkResults {
  simpleInterest : float;
  compoundInterest : float;
  totalSimple : float;
  totalCompound : float
}.

(** The formulas of [calculateInterest] in [script_new.js], operation by
    operation, wherever [Math_pow] is determined. *)
Definition interest (principal rate months : float) : option Results :=
  let simpleInterest := principal * (rate / 100) * months in
  match Math_pow (1 + rate / 100) months with
  | None => None
  | Some power =>
      let compoundInterest := principal * (power - 1) in
      let totalSimple := principal + simpleInterest in
      let totalCompound := principal + compoundInterest in
      Some (mkResults simpleInterest compoundInterest totalSimple totalCompound)
  end.

(** The checks of [addInvestment] on a parsed principal and rate:
    [!v || v <= 0] and [!v || v < 0]. *)
Definition principal_refused (v : float) : bool :=
  (is_nan v || (v =? 0)) || (v <=? 0).

Definition rate_refused (v : float) : bool :=
  (is_nan v || (v =? 0)) || (v <? 0).

End B64.

(** ** Modal messages *)

Inductive ModalType : Type := error | success | info.

Record Modal : Type := mkModal {
  message : string;
  modalType : ModalType
}.

(** The fields of the creation form, as the shells read them: the text of
    the name field, [parseFloat] of the principal and rate fields, the value
    of the start-date input and of the interest-type select. *)
Record Form : Type := mkForm {
  form_name : string;
  form_principal : number;
  form_rate : number;
  form_startDate : option Date;
  form_interestType : string
}.

(** ** The local-storage shell with the edit flow ([script_new.js], first program) *)

Module ScriptNew.

Record Investment : Type := mkInvestment {
  id : Z;
  name : string;
  principal : number;
  rate : number;
  startDate : Date;
  endDate : option Date;     (* [None] is the empty string [''] *)
  months : number;
  simpleInterest : number;
  compoundInterest : number;
  totalSimple : number;
  totalCompound : number;
  calculationDate : string
}.

Record App : Type := mkApp {
  history : list Investment;
  currentEditId : option Z   (* [None] is [null] *)
}.

(** A fresh page over an empty local storage. *)
Definition init : App := mkApp [] None.

(** [this.history.find(inv => inv.id === id)] *)
Definition find_investment (i : Z) (h : list Investment) : option Investment :=
  List.find (fun inv => (id inv =? i)%Z) h.

(** [slice(0, 50)] after [unshift], when the array got longer than 50. *)
Definition addToHistory (investment : Investment) (st : App) : App :=
  let h := investment :: history st in
  mkApp (if (50 <? List.length h)%nat then firstn 50 h else h) (currentEditId st).

(** [now] is [Date.now()] and [nowStr] is [new Date().toLocaleString()]. *)
Definition addInvestment (f : Form) (now : Z) (nowStr : string) (st : App)
  : App * Modal :=
  let name := trim (form_name f) in
  let principal := form_principal f in
  let rate := form_rate f in
  if str_not name then
    (st, mkModal "Please enter a name." error)
  else if js_not principal || (principal <=? Num 0)%js then
    (st, mkModal "Please enter a valid principal amount." error)
  else if js_not rate || (rate <? Num 0)%js then
    (st, mkModal "Please enter a valid interest rate (per month)." error)
  else
    match form_startDate f with
    | None => (st, mkModal "Please select a start date." error)
    | Some startDate =>
        let investment :=
          mkInvestment now name principal rate startDate None
            (Num 0) (Num 0) (Num 0) principal principal nowStr in
        (addToHistory investment st,
         mkModal "Investment added successfully! Add an ending date to calculate interest." success)
    end.

Definition editInvestment (i : Z) (st : App) : App :=
  match find_investment i (history st) with
  | None => st
  | Some _ => mkApp (history st) (Some i)
  end.

(** The assignments to the fields of the object [find] returned: the first
    record of the array with that id is updated in place. *)
Fixpoint update_first (i : Z) (upd : Investment -> Investment)
    (h : list Investment) : list Investment :=
  match h with
  | [] => []
  | inv :: h' =>
      if (id inv =? i)%Z then upd inv :: h' else inv :: update_first i upd h'
  end.

Definition set_calculation (endDate : Date) (months : number) (r : Results)
    (nowStr : string) (inv : Investment) : Investment :=
  mkInvestment (id inv) (name inv) (principal inv) (rate inv) (startDate inv)
    (Some endDate) months
    (res_simpleInterest r) (res_compoundInterest r)
    (res_totalSimple r) (res_totalCompound r) nowStr.

(** [endDateField] is the value of the end-date input of the edit modal.
    The third component is what [updateResults] is given to display.
    [!this.currentEditId] holds on [null] and on the number zero. *)
Definition calculateInterest (endDateField : option Date) (nowStr : string)
    (st : App) : App * Modal * option Results :=
  match currentEditId st with
  | None => (st, mkModal "No investment selected for editing." error, None)
  | Some cur =>
      if (cur =? 0)%Z then
        (st, mkModal "No investment selected for editing." error, None)
      else
        match endDateField with
        | None => (st, mkModal "Please select an ending date." error, None)
        | Some endDate =>
            match find_investment cur (history st) with
            | None => (st, mkModal "Investment not found." error, None)
            | Some investment =>
                if Date_lt endDate (startDate investment) then
                  (st, mkModal "Ending date must be on or after the start date." error, None)
                else
                  let months := Num (monthsBetween (startDate investment) endDate) in
                  if (months <=? Num 0)%js then
                    (st, mkModal "The period must be at least part of a month." error, None)
                  else
                    let r := interest (principal investment) (rate investment) months in
                    (mkApp (update_first cur (set_calculation endDate months r nowStr)
                              (history st))
                           None,
                     mkModal "Interest calculated successfully!" success,
                     Some r)
            end
        end
  end.

(** The user confirmed the dialog. *)
Definition clearHistory (st : App) : App := mkApp [] (currentEditId st).

(** What the user can do with the page. *)
Inductive Event : Type :=
  | Add (f : Form) (now : Z) (nowStr : string)
  | Edit (i : Z)
  | Calculate (endDateField : option Date) (nowStr : string)
  | Clear.

Definition step (st : App) (e : Event) : App :=
  match e with
  | Add f now nowStr => fst (addInvestment f now nowStr st)
  | Edit i => editInvestment i st
  | Calculate endDateField nowStr => fst (fst (calculateInterest endDateField nowStr st))
  | Clear => clearHistory st
  end.

Definition run (es : list Event) : App := fold_left step es init.

(** The real-time colouring of a field: [true] when it is marked invalid. *)
Definition validateInput (fieldId : string) (value : number) : bool :=
  if String.eqb fieldId "principal" && (value <=? Num 0)%js then true
  else if String.eqb fieldId "rate" && (value <? Num 0)%js then true
  else false.

(** One row of the history table, as [loadHistory] fills it: a cell that
    shows ['-'] is [None], a cell that shows a value holds the value that is
    formatted. *)
Inductive Action : Type :=
  | EditButton (i : Z)     (* the button calls [editInvestment] on this id *)
  | CalculatedText.

Record HistoryRow : Type := mkHistoryRow {
  row_name : string;
  row_principal : number;
  row_rate : number;
  row_startDate : Date;
  row_endDate : option Date;
  row_months : option number;
  row_simpleInterest : option number;
  row_compoundInterest : option number;
  row_action : Action
}.

(** [v > 0 ? v : '-'] *)
Definition positive_or_dash (v : number) : option number :=
  if (Num 0 <? v)%js then Some v else None.

Definition history_row (inv : Investment) : HistoryRow :=
  mkHistoryRow (name inv) (principal inv) (rate inv) (startDate inv) (endDate inv)
    (positive_or_dash (months inv))
    (positive_or_dash (simpleInterest inv))
    (positive_or_dash (compoundInterest inv))
    (match endDate inv with
     | None => EditButton (id inv)
     | Some _ => CalculatedText
     end).

(** The rows of the table; the empty list is the single placeholder row
    "No investments yet". *)
Definition loadHistory (st : App) : list HistoryRow := map history_row (history st).

End ScriptNew.

(** ** The two-step form shell ([script_new.js], second program) *)

Module ScriptLegacy.

Definition validateStepOne (f : Form) : bool * option Modal :=
  let name := trim (form_name f) in
  let principal := form_principal f in
  let rate := form_rate f in
  if str_not name then
    (false, Some (mkModal "Please enter a name." error))
  else if js_not principal || (principal <=? Num 0)%js then
    (false, Some (mkModal "Please enter a valid principal amount." error))
  else if js_not rate || (rate <? Num 0)%js then
    (false, Some (mkModal "Please enter a valid interest rate (per month)." error))
  else
    match form_startDate f with
    | None => (false, Some (mkModal "Please select a start date." error))
    | Some _ => (true, None)
    end.

(** A record of the history of the two-step shell: it is created by
    [calculateInterest], with every field set. *)
Record Calculation : Type := mkCalculation {
  id : Z;
  name : string;
  principal : number;
  rate : number;
  startDate : option Date;   (* the value of the start-date input *)
  endDate : Date;
  months : number;
  simpleInterest : number;
  compoundInterest : number;
  totalSimple : number;
  totalCompound : number;
  calculationDate : string
}.

(** [new Date(endDate) < new Date(startDate)] when the start-date input may
    be empty: [new Date('')] is an invalid date, and a comparison with it is
    false. *)
Definition end_before_start (endDate : Date) (startDate : option Date) : bool :=
  match startDate with
  | None => false
  | Some s => Date_lt endDate s
  end.

(** [monthsBetween(startDate, endDate)] on the same inputs: the fields of an
    invalid date are [NaN], and so is the result. *)
Definition monthsBetween_input (startDate : option Date) (endDate : Date) : number :=
  match startDate with
  | None => NaN
  | Some s => Num (monthsBetween s endDate)
  end.

Definition addToHistory (calculation : Calculation) (history : list Calculation)
  : list Calculation :=
  let h := calculation :: history in
  if (50 <? List.length h)%nat then firstn 50 h else h.

(** [calculateInterest] reads the form again and checks the two dates only.
    [endDateField] is the value of the end-date input. *)
Definition calculateInterest (f : Form) (endDateField : option Date) (now : Z)
    (nowStr : string) (history : list Calculation)
  : list Calculation * Modal * option Results :=
  let name := trim (form_name f) in
  let principal := form_principal f in
  let rate := form_rate f in
  let startDate := form_startDate f in
  match endDateField with
  | None => (history, mkModal "Please select an ending date." error, None)
  | Some endDate =>
      if end_before_start endDate startDate then
        (history, mkModal "Ending date must be on or after the start date." error, None)
      else
        let months := monthsBetween_input startDate endDate in
        if (months <=? Num 0)%js then
          (history, mkModal "The period must be at least part of a month." error, None)
        else
          let r := interest principal rate months in
          let calculation :=
            mkCalculation now name principal rate startDate endDate months
              (res_simpleInterest r) (res_compoundInterest r)
              (res_totalSimple r) (res_totalCompound r) nowStr in
          (addToHistory calculation history,
           mkModal "Interest calculation completed successfully!" success,
           Some r)
  end.

(** The handler of a change of the start date: while the calculate button
    is visible, an end date that has fallen before the start date is moved
    to the start date.  The result is the new value of the end-date input. *)
Definition startDateChanged (calcBtnVisible : bool) (startDate endField : option Date)
  : option Date :=
  if calcBtnVisible then
    match endField with
    | None => None
    | Some endDate =>
        if end_before_start endDate startDate then startDate else Some endDate
    end
  else endField.

End ScriptLegacy.

(** ** The database-backed shell ([static/script_db.js]) *)

Module ScriptDb.

(** A record of [this.history], as the server lists it. *)
Record Investment : Type := mkInvestment {
  id : Z;
  name : string;
  principal : number;
  rate : number;
  start_date : Date;
  end_date : option Date;
  months : number;
  simple_interest : number;
  compound_interest : number;
  total_simple : number;
  total_compound : number;
  interest_type : string
}.

Record App : Type := mkApp {
  history : list Investment;
  currentEditId : option Z
}.

(** The body of the [POST] request of [addInvestment]. *)
Record NewInvestment : Type := mkNewInvestment {
  new_id : Z;
  new_name : string;
  new_principal : number;
  new_rate : number;
  new_startDate : Date;
  new_interestType : string;
  new_endDate : option Date;
  new_months : number;
  new_simpleInterest : number;
  new_compoundInterest : number;
  new_totalSimple : number;
  new_totalCompound : number;
  new_calculationDate : string
}.

(** The body of the [PUT] request of [calculateInterest]. *)
Record UpdateData : Type := mkUpdateData {
  upd_endDate : Date;
  upd_months : number;
  upd_simpleInterest : number;
  upd_compoundInterest : number;
  upd_totalSimple : number;
  upd_totalCompound : number;
  upd_interestType : string;
  upd_calculationDate : string
}.

(** What a call does up to its request: it returns after a modal, or it
    sends the request. *)
Inductive AddOutcome : Type :=
  | AddRejected (m : Modal)
  | Posted (investment : NewInvestment).

(** [shown] is what [updateResults] is given once the response is ok. *)
Inductive CalcOutcome : Type :=
  | CalcRejected (m : Modal)
  | Put (editId : Z) (updateData : UpdateData) (shown : Results).

Definition find_investment (i : Z) (h : list Investment) : option Investment :=
  List.find (fun inv => (id inv =? i)%Z) h.

(** [now] is [Date.now()] and [nowIso] is [new Date().toISOString()]. *)
Definition addInvestment (f : Form) (now : Z) (nowIso : string) : AddOutcome :=
  let name := trim (form_name f) in
  let principal := form_principal f in
  let rate := form_rate f in
  let interestType := form_interestType f in
  if str_not name then
    AddRejected (mkModal "Please enter a name." error)
  else if js_not principal || (principal <=? Num 0)%js then
    AddRejected (mkModal "Please enter a valid principal amount." error)
  else if js_not rate || (rate <? Num 0)%js then
    AddRejected (mkModal "Please enter a valid interest rate (per month)." error)
  else
    match form_startDate f with
    | None => AddRejected (mkModal "Please select a start date." error)
    | Some startDate =>
        if str_not interestType then
          AddRejected (mkModal "Please select an interest type." error)
        else
          Posted (mkNewInvestment now name principal rate startDate interestType
                    None (Num 0) (Num 0) (Num 0) principal principal nowIso)
    end.

Definition calculateInterest (endDateField : option Date)
    (interestType nowIso : string) (st : App) : CalcOutcome :=
  match currentEditId st with
  | None => CalcRejected (mkModal "No investment selected for editing." error)
  | Some cur =>
      if (cur =? 0)%Z then
        CalcRejected (mkModal "No investment selected for editing." error)
      else
        match endDateField with
        | None => CalcRejected (mkModal "Please select an ending date." error)
        | Some endDate =>
            match find_investment cur (history st) with
            | None => CalcRejected (mkModal "Investment not found." error)
            | Some investment =>
                if Date_lt endDate (start_date investment) then
                  CalcRejected
                    (mkModal "Ending date must be on or after the start date." error)
                else
                  let months :=
                    round2 (Num (monthsBetween (start_date investment) endDate)) in
                  if (months <=? Num 0)%js then
                    CalcRejected
                      (mkModal "The period must be at least part of a month." error)
                  else
                    let r :=
                      interest_rounded (principal investment) (rate investment) months in
                    Put cur
                      (mkUpdateData endDate months
                         (res_simpleInterest r) (res_compoundInterest r)
                         (res_totalSimple r) (res_totalCompound r)
                         interestType nowIso)
                      r
            end
        end
  end.

Definition editInvestment (i : Z) (st : App) : App :=
  match find_investment i (history st) with
  | None => st
  | Some _ => mkApp (history st) (Some i)
  end.

(** [deleteInvestment]: [confirmed] is the answer to the dialog and [ok]
    the status of the response to the [DELETE] request. *)
Definition deleteInvestment (investmentId : Z) (confirmed ok : bool) (st : App) : App :=
  if confirmed && ok then
    mkApp (filter (fun inv => negb (id inv =? investmentId)%Z) (history st))
      (currentEditId st)
  else st.

(** [parseFloat] of a field that holds a number. *)
Definition parseFloat (v : number) : number := v.

(** [a || b] on numbers. *)
Definition js_or (a b : number) : number := if js_not a then b else a.

(** The five sums of [updateResultsForAllInvestments]. *)
Record Totals : Type := mkTotals {
  totalSimpleInterest : number;
  totalCompoundInterest : number;
  totalSimple : number;
  totalCompound : number;
  totalPrincipal : number
}.

Definition add_investment (t : Totals) (inv : Investment) : Totals :=
  let simpleInterest := js_or (parseFloat (simple_interest inv)) (Num 0) in
  let compoundInterest := js_or (parseFloat (compound_interest inv)) (Num 0) in
  let totalSimpleInv := js_or (parseFloat (total_simple inv)) (principal inv) in
  let totalCompoundInv := js_or (parseFloat (total_compound inv)) (principal inv) in
  mkTotals (totalSimpleInterest t + simpleInterest)%js
    (totalCompoundInterest t + compoundInterest)%js
    (totalSimple t + totalSimpleInv)%js
    (totalCompound t + totalCompoundInv)%js
    (totalPrincipal t + principal inv)%js.

Definition updateResultsForAllInvestments (st : App) : Totals :=
  fold_left add_investment (history st)
    (mkTotals (Num 0) (Num 0) (Num 0) (Num 0) (Num 0)).

End ScriptDb.

(** A number with at most two decimals: a whole number of hundredths. *)
Definition two_decimals (v : number) : Prop :=
  match v with
  | NaN => True
  | Num x => exists k : Z, x = IZR k / 100
  end.

(** ** Predicates on the stored records *)

Module Invariants.
Import ScriptNew.

(** The state of the derived fields of a stored record: before a
    calculation the month count and both interests are zero and both
    totals are the principal; after one, the five fields are those of the
    engine at the month span of the stored end date. *)
Definition derived_fields_together (inv : Investment) : Prop :=
  match endDate inv with
  | None =>
      months inv = Num 0
      /\ simpleInterest inv = Num 0 /\ compoundInterest inv = Num 0
      /\ totalSimple inv = principal inv /\ totalCompound inv = principal inv
  | Some e =>
      0 < monthsBetween (startDate inv) e
      /\ months inv = Num (monthsBetween (startDate inv) e)
      /\ mkResults (simpleInterest inv) (compoundInterest inv)
           (totalSimple inv) (totalCompound inv)
         = interest (principal inv) (rate inv) (months inv)
  end.

(** The reading of "all zero or absent" for the five derived fields. *)
Definition derived_fields_zero (inv : Investment) : Prop :=
  months inv = Num 0
  /\ simpleInterest inv = Num 0 /\ compoundInterest inv = Num 0
  /\ totalSimple inv = Num 0 /\ totalCompound inv = Num 0.

(** The principal and the rate of a stored record are real numbers, both
    positive. *)
Definition stored_numbers (inv : Investment) : Prop :=
  exists p r : R,
    principal inv = Num p /\ rate inv = Num r /\ 0 < p /\ 0 < r.

(** The clock readings [Date.now()] of the records a run tries to add. *)
Definition add_times (es : list Event) : list Z :=
  flat_map (fun e => match e with Add _ now _ => [now] | _ => [] end) es.

(** A property of records holds of every record of the history. *)
Definition holds_in (P : Investment -> Prop) (st : App) : Prop :=
  forall inv, In inv (history st) -> P inv.

End Invariants.

(** ** Sample data of the examples *)

Module Samples.

Definition savings_form : Form :=
  mkForm "Savings" (Num 10000) (Num 5) (Some (mkDate 2024 1 1)) "given".

(** The record [ScriptNew.addInvestment] makes of [savings_form]. *)
Definition savings_created : ScriptNew.Investment :=
  ScriptNew.mkInvestment 1 "Savings" (Num 10000) (Num 5) (mkDate 2024 1 1) None
    (Num 0) (Num 0) (Num 0) (Num 10000) (Num 10000) "t0".

(** The same record after a calculation up to the 1st of April. *)
Definition savings_calculated : ScriptNew.Investment :=
  ScriptNew.set_calculation (mkDate 2024 4 1)
    (Num (monthsBetween (mkDate 2024 1 1) (mkDate 2024 4 1)))
    (interest (Num 10000) (Num 5)
       (Num (monthsBetween (mkDate 2024 1 1) (mkDate 2024 4 1))))
    "t1" savings_created.

(** A record that starts on the 31st of January, selected for editing. *)
Definition month_end_page : ScriptNew.App :=
  ScriptNew.mkApp
    [ScriptNew.mkInvestment 1 "Savings" (Num 10000) (Num 5) (mkDate 2024 1 31) None
       (Num 0) (Num 0) (Num 0) (Num 10000) (Num 10000) "t0"]
    (Some 1%Z).

(** A pending record of the database-backed shell, selected for editing. *)
Definition db_pending : ScriptDb.Investment :=
  ScriptDb.mkInvestment 7 "Savings" (Num 10000) (Num 5) (mkDate 2024 1 1) None
    (Num 0) (Num 0) (Num 0) (Num 10000) (Num 10000) "given".

Definition db_page : ScriptDb.App := ScriptDb.mkApp [db_pending] (Some 7%Z).

(** What the database-backed shell computes for [db_pending] and an end
    date one day after the start. *)
Definition db_one_day_results : Results :=
  interest_rounded (Num 10000) (Num 5)
    (Num (round2R (monthsBetween (mkDate 2024 1 1) (mkDate 2024 1 2)))).

Definition db_one_day_update : ScriptDb.UpdateData :=
  ScriptDb.mkUpdateData (mkDate 2024 1 2)
    (Num (round2R (monthsBetween (mkDate 2024 1 1) (mkDate 2024 1 2))))
    (res_simpleInterest db_one_day_results) (res_compoundInterest db_one_day_results)
    (res_totalSimple db_one_day_results) (res_totalCompound db_one_day_results)
    "given" "t1".

(** A second pending record, and a history of two pending records. *)
Definition db_deposit : ScriptDb.Investment :=
  ScriptDb.mkInvestment 9 "Deposit" (Num 2500) (Num 4) (mkDate 2024 2 1) None
    (Num 0) (Num 0) (Num 0) (Num 2500) (Num 2500) "given".

Definition db_two_pending : ScriptDb.App :=
  ScriptDb.mkApp [db_deposit; db_pending] None.

(** A history of the database-backed shell with a pending and a calculated
    record: 2000 at 5 percent over three months. *)
Definition db_calculated : ScriptDb.Investment :=
  ScriptDb.mkInvestment 8 "Loan" (Num 2000) (Num 5) (mkDate 2024 1 1)
    (Some (mkDate 2024 4 1)) (Num 3) (Num 300) (Num 315.25) (Num 2300) (Num 2315.25)
    "taken".

Definition db_two_records : ScriptDb.App :=
  ScriptDb.mkApp [db_calculated; db_pending] None.

End Samples.

(** * Properties *)

(** ** Numbers *)

Lemma js_le_Num (x y : R) : (Num x <=? Num y)%js = true <-> x <= y.
Proof.
  unfold js_le. destruct (Rle_dec x y); split; intros; try easy.
Qed.

Lemma js_lt_Num (x y : R) : (Num x <? Num y)%js = true <-> x < y.
Proof.
  unfold js_lt. destruct (Rlt_dec x y); split; intros; try easy.
Qed.

Lemma js_le_Num_false (x y : R) : (Num x <=? Num y)%js = false <-> y < x.
Proof.
  unfold js_le. destruct (Rle_dec x y); split; intros; try easy; lra.
Qed.

Lemma js_lt_Num_false (x y : R) : (Num x <? Num y)%js = false <-> y <= x.
Proof.
  unfold js_lt. destruct (Rlt_dec x y); split; intros; try easy; lra.
Qed.

Lemma js_not_Num (x : R) : js_not (Num x) = true <-> x = 0.
Proof.
  unfold js_not. destruct (Req_dec_T x 0); split; intros; try easy.
Qed.

Lemma js_not_Num_false (x : R) : js_not (Num x) = false <-> x <> 0.
Proof.
  unfold js_not. destruct (Req_dec_T x 0); split; intros; try easy.
Qed.

(** On a positive base [Math.pow] is the real power [exp (y * ln x)]. *)
Lemma Math_pow_pos (x y : R) :
  0 < x -> Math_pow (Num x) (Num y) = Num (Rpower x y).
Proof.
  intros Hx. unfold Math_pow.
  destruct (Req_dec_T y 0) as [-> | Hy].
  - now rewrite Rpower_O.
  - destruct (Rlt_dec 0 x); [reflexivity | contradiction].
Qed.

Lemma round2_Num (x : R) : round2 (Num x) = Num (round2R x).
Proof. reflexivity. Qed.

Lemma round2R_eq (x : R) (k : Z) :
  IZR k <= x * 100 + / 2 < IZR k + 1 -> round2R x = IZR k / 100.
Proof.
  intros H. unfold round2R. now rewrite (Zfloor_eq k).
Qed.

Lemma round2R_nonpos (x : R) : x <= 0 -> round2R x <= 0.
Proof.
  intros Hx. unfold round2R.
  assert (Hz : (Zfloor (x * 100 + / 2) <= 0)%Z).
  { destruct (Zfloor_bound (x * 100 + / 2)) as [Hlo _].
    apply Z.lt_succ_r. apply lt_IZR.
    change (IZR (Z.succ 0)) with 1. lra. }
  apply IZR_le in Hz. lra.
Qed.

(** A rounded value is a whole number of hundredths. *)
Lemma round2R_hundredths (x : R) : exists k : Z, round2R x = IZR k / 100.
Proof. now exists (Zfloor (x * 100 + / 2)). Qed.

Lemma round2_two_decimals (v : number) : two_decimals (round2 v).
Proof.
  destruct v as [| x]; [exact I |]. rewrite round2_Num. apply round2R_hundredths.
Qed.

(** ** The interest engine *)

(** The full-precision formulas, on real arguments with a positive base. *)
Lemma interest_Num (p r m : R) :
  0 <= r ->
  interest (Num p) (Num r) (Num m)
    = mkResults (Num (p * (r / 100) * m))
        (Num (p * (Rpower (1 + r / 100) m - 1)))
        (Num (p + p * (r / 100) * m))
        (Num (p + p * (Rpower (1 + r / 100) m - 1))).
Proof.
  intros Hr. assert (Hb : 0 < 1 + r / 100) by lra.
  unfold interest; cbv zeta. cbn [js_add js_sub js_mul js_div lift2].
  rewrite (Math_pow_pos _ m Hb). reflexivity.
Qed.

(** The rounded formulas, on the same arguments. *)
Lemma interest_rounded_Num (p r m : R) :
  0 <= r ->
  interest_rounded (Num p) (Num r) (Num m)
    = mkResults (Num (round2R (p * (r / 100) * m)))
        (Num (round2R (p * (Rpower (1 + r / 100) m - 1))))
        (Num (round2R (p + round2R (p * (r / 100) * m))))
        (Num (round2R (p + round2R (p * (Rpower (1 + r / 100) m - 1))))).
Proof.
  intros Hr. assert (Hb : 0 < 1 + r / 100) by lra.
  unfold interest_rounded; cbv zeta. cbn [js_add js_sub js_mul js_div lift2].
  rewrite (Math_pow_pos _ m Hb); cbn [js_add js_sub js_mul js_div lift2].
  do 2 (rewrite ?round2_Num; cbn [js_add js_sub js_mul js_div lift2]).
  rewrite ?round2_Num. reflexivity.
Qed.

(** The first scenario of the specification: 10000 at 5 percent a month
    over 3 months. *)
Example interest_three_months :
  interest (Num 10000) (Num 5) (Num 3)
    = mkResults (Num 1500) (Num 1576.25) (Num 11500) (Num 11576.25).
Proof.
  rewrite interest_Num by lra.
  replace 3 with (INR 3) at 2 4 by (simpl; lra).
  rewrite Rpower_pow by lra.
  repeat f_equal; simpl; lra.
Qed.

(** Bernoulli's inequality for a real exponent. *)
Lemma Rpower_Bernoulli (x m : R) :
  0 < x -> 1 < m -> 1 + m * x < Rpower (1 + x) m.
Proof.
  intros Hx Hm.
  set (a := ln (1 + x)).
  assert (H1x : 0 < 1 + x) by lra.
  assert (Ha : 0 < a).
  { unfold a. rewrite <- ln_1. apply ln_increasing; lra. }
  (* [a >= x / (1 + x)], from [1 - a <= exp (- a) = / (1 + x)] *)
  assert (Hlow : x <= a * (1 + x)).
  { pose proof (exp_ineq1_le (- a)) as H.
    rewrite exp_Ropp in H. unfold a in H. rewrite exp_ln in H by assumption.
    fold a in H.
    apply (Rmult_le_compat_r (1 + x)) in H; [| lra].
    rewrite Rinv_l in H by lra. lra. }
  (* [(1 + x)^m = (1 + x) * exp ((m - 1) * a)] *)
  assert (Hsplit : Rpower (1 + x) m = (1 + x) * exp ((m - 1) * a)).
  { unfold Rpower. fold a.
    replace (m * a) with (a + (m - 1) * a) by ring.
    rewrite exp_plus. unfold a at 1. now rewrite exp_ln. }
  rewrite Hsplit.
  assert (Hexp : 1 + (m - 1) * a < exp ((m - 1) * a)).
  { apply exp_ineq1. nra. }
  nra.
Qed.

(** ** The period resolver *)

Lemma Date_lt_irrefl (d : Date) : Date_lt d d = false.
Proof.
  unfold Date_lt. rewrite !Z.ltb_irrefl, !Z.eqb_refl. reflexivity.
Qed.

(** [Date_lt] read as a proposition on the calendar fields. *)
Lemma Date_lt_true (a b : Date) :
  Date_lt a b = true <->
  (year a < year b
   \/ (year a = year b
       /\ (month a < month b \/ (month a = month b /\ day a < day b))))%Z.
Proof.
  unfold Date_lt.
  rewrite !orb_true_iff, !andb_true_iff, !orb_true_iff, !andb_true_iff.
  rewrite !Z.ltb_lt, !Z.eqb_eq. tauto.
Qed.

Lemma Date_lt_false (a b : Date) :
  Date_lt a b = false <->
  (year b < year a
   \/ (year a = year b
       /\ (month b < month a \/ (month a = month b /\ day b <= day a))))%Z.
Proof.
  rewrite <- not_true_iff_false, Date_lt_true. lia.
Qed.

(** Evaluates the calendar fields of literal dates and closes the resulting
    goal of real arithmetic. *)
Ltac span_calc :=
  cbv [getFullYear getMonth getDate year month day]; simpl; lra.

(** Past its guard, [monthsBetween] is the whole-month difference plus a
    thirtieth of the day difference. *)
Lemma monthsBetween_unguarded (startDate endDate : Date) :
  Date_lt endDate startDate = false ->
  monthsBetween startDate endDate
    = IZR ((getFullYear endDate - getFullYear startDate) * 12
           + (getMonth endDate - getMonth startDate))
      + IZR (getDate endDate - getDate startDate) / 30.
Proof.
  intros H. unfold monthsBetween. rewrite H. reflexivity.
Qed.

Lemma monthsBetween_guarded (startDate endDate : Date) :
  Date_lt endDate startDate = true -> monthsBetween startDate endDate = 0.
Proof.
  intros H. unfold monthsBetween. now rewrite H.
Qed.

(** A fractional span: a start on the 1st, an end on the 16th of the month. *)
Example monthsBetween_fractional :
  Date_lt (mkDate 2024 1 16) (mkDate 2024 1 1) = false
  /\ monthsBetween (mkDate 2024 1 1) (mkDate 2024 1 16) = 1 / 2.
Proof.
  split; [reflexivity |].
  rewrite monthsBetween_unguarded by reflexivity. span_calc.
Qed.

(** A span that is not positive although the end date is the later one:
    from the 31st of January to the 1st of February. *)
Example monthsBetween_zero_next_day :
  Date_lt (mkDate 2024 2 1) (mkDate 2024 1 31) = false
  /\ Date_lt (mkDate 2024 1 31) (mkDate 2024 2 1) = true
  /\ monthsBetween (mkDate 2024 1 31) (mkDate 2024 2 1) <= 0.
Proof.
  split; [reflexivity | split; [reflexivity |]].
  rewrite monthsBetween_unguarded by reflexivity. span_calc.
Qed.

(** The second scenario of the specification. *)
Example monthsBetween_three_months :
  monthsBetween (mkDate 2024 1 1) (mkDate 2024 4 1) = 3.
Proof.
  rewrite monthsBetween_unguarded by reflexivity. span_calc.
Qed.

(** For every date, the span from the date to itself is zero. *)
Lemma monthsBetween_same (d : Date) : monthsBetween d d = 0.
Proof.
  rewrite monthsBetween_unguarded by apply Date_lt_irrefl.
  unfold getFullYear, getMonth, getDate.
  rewrite !Z.sub_diag. simpl. lra.
Qed.

(** Between dates a date input can hold, the span is never negative. *)
Lemma monthsBetween_nonneg (startDate endDate : Date) :
  valid_date startDate = true -> valid_date endDate = true ->
  0 <= monthsBetween startDate endDate.
Proof.
  intros Hs He. unfold monthsBetween.
  destruct (Date_lt endDate startDate) eqn:Hlt; [lra |].
  apply Date_lt_false in Hlt.
  unfold valid_date in Hs, He.
  rewrite !andb_true_iff, !Z.leb_le in Hs, He.
  assert (Hds : (day startDate <= 31)%Z).
  { destruct Hs as [_ Hs]. revert Hs. unfold days_in_month.
    repeat match goal with |- context [if ?b then _ else _] => destruct b end; lia. }
  cbv zeta. unfold getFullYear, getMonth, getDate.
  set (w := ((year endDate - year startDate) * 12
             + (month endDate - 1 - (month startDate - 1)))%Z).
  set (dd := (day endDate - day startDate)%Z).
  assert (Hz : (0 <= 30 * w + dd)%Z) by (unfold w, dd; lia).
  apply IZR_le in Hz. rewrite plus_IZR, mult_IZR in Hz. lra.
Qed.

Example monthsBetween_one_day :
  monthsBetween (mkDate 2024 1 1) (mkDate 2024 1 2) = 1 / 30.
Proof.
  rewrite monthsBetween_unguarded by reflexivity. span_calc.
Qed.

Example round2R_one_day : round2R (1 / 30) = 3 / 100.
Proof.
  rewrite (round2R_eq _ 3); simpl; lra.
Qed.

(** ** The local-storage shell *)

Module ScriptNewFacts.
Import ScriptNew Invariants.

Lemma In_firstn {A : Type} (n : nat) (l : list A) (x : A) :
  In x (firstn n l) -> In x l.
Proof.
  intros H. rewrite <- (firstn_skipn n l). apply in_or_app. now left.
Qed.

Lemma In_addToHistory (investment inv : Investment) (st : App) :
  In inv (history (addToHistory investment st)) ->
  inv = investment \/ In inv (history st).
Proof.
  unfold addToHistory; cbn [history].
  destruct (50 <? _)%nat; intros H; [apply In_firstn in H |];
    destruct H as [-> | H]; auto.
Qed.

(** The checks of [addInvestment], read on the parsed fields. *)
Lemma number_check_principal (v : number) :
  js_not v || (v <=? Num 0)%js = false <-> exists p, v = Num p /\ 0 < p.
Proof.
  rewrite orb_false_iff. destruct v as [| x]; cbn [js_not js_le].
  - split; [intros [H _]; discriminate | intros (p & H & _); discriminate].
  - fold (js_not (Num x)). fold (js_le (Num x) (Num 0)).
    rewrite js_not_Num_false, js_le_Num_false. split.
    + intros [_ H]. now exists x.
    + intros (p & [= ->] & H). split; lra.
Qed.

Lemma number_check_rate (v : number) :
  js_not v || (v <? Num 0)%js = false <-> exists r, v = Num r /\ 0 < r.
Proof.
  rewrite orb_false_iff. destruct v as [| x]; cbn [js_not js_lt].
  - split; [intros [H _]; discriminate | intros (p & H & _); discriminate].
  - fold (js_not (Num x)). fold (js_lt (Num x) (Num 0)).
    rewrite js_not_Num_false, js_lt_Num_false. split.
    + intros [Hn H]. exists x. split; [reflexivity | lra].
    + intros (p & [= ->] & H). split; lra.
Qed.

(** [addInvestment] creates a record exactly when the trimmed name is not
    empty, the principal and the rate are positive numbers and a start
    date is given; otherwise it shows an error and changes nothing. *)
Lemma addInvestment_accepts (f : Form) (now : Z) (nowStr : string) (st : App)
    (p r : R) (d : Date) :
  str_not (trim (form_name f)) = false ->
  form_principal f = Num p -> 0 < p ->
  form_rate f = Num r -> 0 < r ->
  form_startDate f = Some d ->
  addInvestment f now nowStr st
    = (addToHistory
         (mkInvestment now (trim (form_name f)) (Num p) (Num r) d None
            (Num 0) (Num 0) (Num 0) (Num p) (Num p) nowStr) st,
       mkModal "Investment added successfully! Add an ending date to calculate interest."
         success).
Proof.
  intros Hn Hp Hp0 Hr Hr0 Hd. unfold addInvestment.
  rewrite Hn.
  replace (js_not (form_principal f) || (form_principal f <=? Num 0)%js) with false
    by (symmetry; apply number_check_principal; rewrite Hp; eauto).
  replace (js_not (form_rate f) || (form_rate f <? Num 0)%js) with false
    by (symmetry; apply number_check_rate; rewrite Hr; eauto).
  rewrite Hd, Hp, Hr. reflexivity.
Qed.

Lemma addInvestment_cases (f : Form) (now : Z) (nowStr : string) (st : App) :
  (exists msg, addInvestment f now nowStr st = (st, mkModal msg error))
  \/ (exists (p r : R) (d : Date),
        str_not (trim (form_name f)) = false
        /\ form_principal f = Num p /\ 0 < p
        /\ form_rate f = Num r /\ 0 < r
        /\ form_startDate f = Some d).
Proof.
  unfold addInvestment.
  destruct (str_not (trim (form_name f))) eqn:Hn; [left; eauto |].
  destruct (js_not (form_principal f) || (form_principal f <=? Num 0)%js) eqn:Hp;
    [left; eauto |].
  destruct (js_not (form_rate f) || (form_rate f <? Num 0)%js) eqn:Hr;
    [left; eauto |].
  destruct (form_startDate f) as [d |] eqn:Hd; [| left; eauto].
  apply number_check_principal in Hp as (p & Hp & Hp0).
  apply number_check_rate in Hr as (r & Hr & Hr0).
  right. exists p, r, d. auto 10.
Qed.

(** [update_first] changes the record [find] returns, and no other. *)
Lemma In_update_first (cur : Z) (upd : Investment -> Investment)
    (h : list Investment) (investment inv : Investment) :
  find_investment cur h = Some investment ->
  In inv (update_first cur upd h) ->
  inv = upd investment \/ In inv h.
Proof.
  unfold find_investment. induction h as [| x h IH]; cbn [List.find update_first].
  - discriminate.
  - destruct (id x =? cur)%Z.
    + intros [= ->] [<- | H]; [now left | right; now right].
    + intros Hf [<- | H]; [right; now left |].
      destruct (IH Hf H); [now left | right; now right].
Qed.

(** The shape of a successful calculation. *)
Lemma calculateInterest_cases (endDateField : option Date) (nowStr : string)
    (st : App) :
  (exists msg, calculateInterest endDateField nowStr st = (st, mkModal msg error, None))
  \/ (exists (cur : Z) (investment : Investment) (e : Date),
        currentEditId st = Some cur /\ cur <> 0%Z
        /\ endDateField = Some e
        /\ find_investment cur (history st) = Some investment
        /\ Date_lt e (startDate investment) = false
        /\ 0 < monthsBetween (startDate investment) e
        /\ let months := Num (monthsBetween (startDate investment) e) in
           let r := interest (principal investment) (rate investment) months in
           calculateInterest endDateField nowStr st
           = (mkApp (update_first cur (set_calculation e months r nowStr) (history st))
                None,
              mkModal "Interest calculated successfully!" success,
              Some r)).
Proof.
  unfold calculateInterest.
  destruct (currentEditId st) as [cur |] eqn:Hcur; [| left; eauto].
  destruct (cur =? 0)%Z eqn:Hz; [left; eauto |].
  destruct endDateField as [e |]; [| left; eauto].
  destruct (find_investment cur (history st)) as [investment |] eqn:Hf;
    [| left; eauto].
  destruct (Date_lt e (startDate investment)) eqn:Hlt; [left; eauto |].
  destruct (Num (monthsBetween (startDate investment) e) <=? Num 0)%js eqn:Hm;
    [left; eauto |].
  right. exists cur, investment, e.
  apply Z.eqb_neq in Hz. apply js_le_Num_false in Hm.
  repeat (split; [assumption || reflexivity |]). reflexivity.
Qed.

Lemma calculateInterest_accepts (e : Date) (nowStr : string) (st : App)
    (cur : Z) (investment : Investment) :
  currentEditId st = Some cur -> cur <> 0%Z ->
  find_investment cur (history st) = Some investment ->
  Date_lt e (startDate investment) = false ->
  0 < monthsBetween (startDate investment) e ->
  let months := Num (monthsBetween (startDate investment) e) in
  let r := interest (principal investment) (rate investment) months in
  calculateInterest (Some e) nowStr st
    = (mkApp (update_first cur (set_calculation e months r nowStr) (history st)) None,
       mkModal "Interest calculated successfully!" success,
       Some r).
Proof.
  intros Hcur Hz Hf Hlt Hm months r. unfold calculateInterest.
  rewrite Hcur. apply Z.eqb_neq in Hz. rewrite Hz, Hf, Hlt.
  apply js_le_Num_false in Hm. rewrite Hm. reflexivity.
Qed.

(** A calculation that the date checks refuse changes nothing. *)
Lemma calculateInterest_rejects (field : option Date) (nowStr : string)
    (st : App) (cur : Z) (investment : Investment) :
  currentEditId st = Some cur -> cur <> 0%Z ->
  find_investment cur (history st) = Some investment ->
  (field = None
   \/ exists e, field = Some e
        /\ (Date_lt e (startDate investment) = true
            \/ monthsBetween (startDate investment) e <= 0)) ->
  exists msg, calculateInterest field nowStr st = (st, mkModal msg error, None).
Proof.
  intros Hcur Hz Hf H. unfold calculateInterest.
  rewrite Hcur. apply Z.eqb_neq in Hz. rewrite Hz.
  destruct H as [-> | (e & -> & H)]; [eauto |].
  rewrite Hf.
  destruct (Date_lt e (startDate investment)) eqn:Hlt; [eauto |].
  destruct H as [H | H]; [discriminate |].
  apply js_le_Num in H. rewrite H. eauto.
Qed.

End ScriptNewFacts.

(** *** Invariants of the history *)

Section HistoryInvariant.
Import ScriptNew ScriptNewFacts Invariants.

Variable P : Investment -> Prop.

(** A record as [addInvestment] creates it has the property ... *)
Hypothesis P_created :
  forall (now : Z) (name nowStr : string) (p r : R) (d : Date),
    str_not name = false -> 0 < p -> 0 < r ->
    P (mkInvestment now name (Num p) (Num r) d None
         (Num 0) (Num 0) (Num 0) (Num p) (Num p) nowStr).

(** ... and the update of [calculateInterest] keeps it. *)
Hypothesis P_calculated :
  forall (inv : Investment) (e : Date) (nowStr : string),
    P inv ->
    Date_lt e (startDate inv) = false ->
    0 < monthsBetween (startDate inv) e ->
    let months := Num (monthsBetween (startDate inv) e) in
    P (set_calculation e months (interest (principal inv) (rate inv) months) nowStr inv).

Lemma step_preserves (st : App) (e : Event) : holds_in P st -> holds_in P (step st e).
Proof.
  intros Hst. destruct e as [f now nowStr | i | endDateField nowStr |]; cbn [step].
  - destruct (addInvestment_cases f now nowStr st)
      as [[msg ->] | (p & r & d & Hn & Hp & Hp0 & Hr & Hr0 & Hd)]; [exact Hst |].
    rewrite (addInvestment_accepts f now nowStr st p r d) by assumption.
    intros inv Hin. cbn [fst] in Hin.
    apply In_addToHistory in Hin as [-> | Hin]; [| now apply Hst].
    now apply P_created.
  - unfold editInvestment.
    destruct (find_investment i (history st)); [| exact Hst].
    exact Hst.
  - destruct (calculateInterest_cases endDateField nowStr st)
      as [[msg ->] | (cur & investment & d & Hcur & Hz & -> & Hf & Hlt & Hm & ->)];
      [exact Hst |].
    intros inv Hin. cbn [fst history] in Hin.
    apply (In_update_first cur _ _ investment) in Hin; [| assumption].
    destruct Hin as [-> | Hin]; [| now apply Hst].
    apply P_calculated; try assumption.
    apply Hst. unfold find_investment in Hf. now apply find_some in Hf.
  - intros inv [].
Qed.

Lemma fold_preserves (es : list Event) (st : App) :
  holds_in P st -> holds_in P (fold_left step es st).
Proof.
  revert st. induction es as [| e es IH]; intros st Hst; cbn [fold_left].
  - exact Hst.
  - apply IH. now apply step_preserves.
Qed.

Lemma run_invariant (es : list Event) : holds_in P (run es).
Proof.
  apply fold_preserves. intros inv [].
Qed.

End HistoryInvariant.

(** *** Two runs of the page *)

Module ScriptNewRuns.
Import ScriptNew ScriptNewFacts Samples.

Example run_add :
  run [Add savings_form 1 "t0"] = mkApp [savings_created] None.
Proof.
  unfold run; cbn [fold_left step].
  rewrite (addInvestment_accepts savings_form 1 "t0" init 10000 5 (mkDate 2024 1 1));
    try reflexivity; lra.
Qed.

Example run_add_edit_calculate :
  run [Add savings_form 1 "t0"; Edit 1; Calculate (Some (mkDate 2024 4 1)) "t1"]
    = mkApp [savings_calculated] None.
Proof.
  change (run [Add savings_form 1 "t0"; Edit 1; Calculate (Some (mkDate 2024 4 1)) "t1"])
    with (step (step (run [Add savings_form 1 "t0"]) (Edit 1))
            (Calculate (Some (mkDate 2024 4 1)) "t1")).
  rewrite run_add. cbn [step].
  change (editInvestment 1 (mkApp [savings_created] None))
    with (mkApp [savings_created] (Some 1%Z)).
  rewrite (calculateInterest_accepts (mkDate 2024 4 1) "t1" _ 1 savings_created);
    try reflexivity.
  - discriminate.
  - change (0 < monthsBetween (mkDate 2024 1 1) (mkDate 2024 4 1)).
    rewrite monthsBetween_three_months. lra.
Qed.

End ScriptNewRuns.

(** ** The database-backed shell *)

Module ScriptDbFacts.
Import ScriptDb ScriptNewFacts.

Lemma db_addInvestment_cases (f : Form) (now : Z) (nowIso : string) :
  (exists msg, addInvestment f now nowIso = AddRejected (mkModal msg error))
  \/ (exists (p r : R) (d : Date),
        str_not (trim (form_name f)) = false
        /\ form_principal f = Num p /\ 0 < p
        /\ form_rate f = Num r /\ 0 < r
        /\ form_startDate f = Some d
        /\ str_not (form_interestType f) = false
        /\ addInvestment f now nowIso
           = Posted (mkNewInvestment now (trim (form_name f)) (Num p) (Num r) d
                       (form_interestType f) None (Num 0) (Num 0) (Num 0)
                       (Num p) (Num p) nowIso)).
Proof.
  unfold addInvestment.
  destruct (str_not (trim (form_name f))) eqn:Hn; [left; eauto |].
  destruct (js_not (form_principal f) || (form_principal f <=? Num 0)%js) eqn:Hp;
    [left; eauto |].
  destruct (js_not (form_rate f) || (form_rate f <? Num 0)%js) eqn:Hr;
    [left; eauto |].
  destruct (form_startDate f) as [d |] eqn:Hd; [| left; eauto].
  destruct (str_not (form_interestType f)) eqn:Hi; [left; eauto |].
  apply number_check_principal in Hp as (p & Hp & Hp0).
  apply number_check_rate in Hr as (r & Hr & Hr0).
  right. exists p, r, d. rewrite Hp, Hr. auto 10.
Qed.

(** A calculation of the database-backed shell that passes its checks. *)
Lemma db_calculateInterest_accepts (e : Date) (interestType nowIso : string)
    (st : App) (cur : Z) (investment : Investment) :
  currentEditId st = Some cur -> cur <> 0%Z ->
  find_investment cur (history st) = Some investment ->
  Date_lt e (start_date investment) = false ->
  0 < round2R (monthsBetween (start_date investment) e) ->
  let months := Num (round2R (monthsBetween (start_date investment) e)) in
  let r := interest_rounded (principal investment) (rate investment) months in
  calculateInterest (Some e) interestType nowIso st
    = Put cur
        (mkUpdateData e months (res_simpleInterest r) (res_compoundInterest r)
           (res_totalSimple r) (res_totalCompound r) interestType nowIso)
        r.
Proof.
  intros Hcur Hz Hf Hlt Hm months r. unfold calculateInterest.
  rewrite Hcur. apply Z.eqb_neq in Hz. rewrite Hz, Hf, Hlt.
  rewrite round2_Num. apply js_le_Num_false in Hm. rewrite Hm. reflexivity.
Qed.

(** A calculation of the database-backed shell that its date checks
    refuse sends no request. *)
Lemma db_calculateInterest_rejects (field : option Date)
    (interestType nowIso : string) (st : App) (cur : Z) (investment : Investment) :
  currentEditId st = Some cur -> cur <> 0%Z ->
  find_investment cur (history st) = Some investment ->
  (field = None
   \/ exists e, field = Some e
        /\ (Date_lt e (start_date investment) = true
            \/ monthsBetween (start_date investment) e <= 0)) ->
  exists msg,
    calculateInterest field interestType nowIso st = CalcRejected (mkModal msg error).
Proof.
  intros Hcur Hz Hf H. unfold calculateInterest.
  rewrite Hcur. apply Z.eqb_neq in Hz. rewrite Hz.
  destruct H as [-> | (e & -> & H)]; [eauto |].
  rewrite Hf.
  destruct (Date_lt e (start_date investment)) eqn:Hlt; [eauto |].
  destruct H as [H | H]; [discriminate |].
  rewrite round2_Num.
  apply round2R_nonpos in H. apply js_le_Num in H. rewrite H. eauto.
Qed.

(** The request of a calculation of the database-backed shell. *)
Lemma db_calculateInterest_put (field : option Date) (interestType nowIso : string)
    (st : ScriptDb.App) (editId : Z) (upd : ScriptDb.UpdateData) (shown : Results) :
  ScriptDb.calculateInterest field interestType nowIso st = ScriptDb.Put editId upd shown ->
  exists (investment : ScriptDb.Investment) (e : Date),
    field = Some e
    /\ ScriptDb.find_investment editId (ScriptDb.history st) = Some investment
    /\ Date_lt e (ScriptDb.start_date investment) = false
    /\ let months := round2 (Num (monthsBetween (ScriptDb.start_date investment) e)) in
       let r := interest_rounded (ScriptDb.principal investment)
                  (ScriptDb.rate investment) months in
       (months <=? Num 0)%js = false
       /\ upd = ScriptDb.mkUpdateData e months
                  (res_simpleInterest r) (res_compoundInterest r)
                  (res_totalSimple r) (res_totalCompound r) interestType nowIso
       /\ shown = r.
Proof.
  unfold ScriptDb.calculateInterest.
  destruct (ScriptDb.currentEditId st) as [cur |]; [| discriminate].
  destruct (cur =? 0)%Z; [discriminate |].
  destruct field as [e |]; [| discriminate].
  destruct (ScriptDb.find_investment cur (ScriptDb.history st)) as [investment |] eqn:Hf;
    [| discriminate].
  destruct (Date_lt e (ScriptDb.start_date investment)) eqn:Hlt; [discriminate |].
  destruct (round2 (Num (monthsBetween (ScriptDb.start_date investment) e)) <=? Num 0)%js
    eqn:Hm; [discriminate |].
  intros [= <- <- <-]. exists investment, e. cbv zeta. auto 10.
Qed.

(** The request for [Samples.db_pending] and an end date one day after the
    start: a month count of [0.03] and a simple interest of [15]. *)
Example db_one_day_request :
  calculateInterest (Some (mkDate 2024 1 2)) "given" "t1" Samples.db_page
    = Put 7 Samples.db_one_day_update Samples.db_one_day_results.
Proof.
  apply (db_calculateInterest_accepts (mkDate 2024 1 2) "given" "t1"
           Samples.db_page 7 Samples.db_pending); try reflexivity.
  - discriminate.
  - change (0 < round2R (monthsBetween (mkDate 2024 1 1) (mkDate 2024 1 2))).
    rewrite monthsBetween_one_day, round2R_one_day. lra.
Qed.

Example db_one_day_simple :
  upd_months Samples.db_one_day_update = Num (3 / 100)
  /\ upd_simpleInterest Samples.db_one_day_update = Num 15.
Proof.
  unfold Samples.db_one_day_update, Samples.db_one_day_results.
  cbn [upd_months upd_simpleInterest].
  rewrite monthsBetween_one_day, round2R_one_day.
  rewrite interest_rounded_Num by lra. cbn [res_simpleInterest].
  split; [reflexivity |].
  rewrite (round2R_eq _ 1500); [f_equal |]; simpl; lra.
Qed.

End ScriptDbFacts.

(** Record creation in the three shells goes through one and the same
    sequence of checks: what the local-storage shell accepts, the two-step
    form accepts. *)
Lemma validateStepOne_accepts (f : Form) :
  fst (ScriptLegacy.validateStepOne f) = true <->
  exists (p r : R) (d : Date),
    str_not (trim (form_name f)) = false
    /\ form_principal f = Num p /\ 0 < p
    /\ form_rate f = Num r /\ 0 < r
    /\ form_startDate f = Some d.
Proof.
  unfold ScriptLegacy.validateStepOne. split.
  - destruct (str_not (trim (form_name f))) eqn:Hn; [discriminate |].
    destruct (js_not (form_principal f) || (form_principal f <=? Num 0)%js) eqn:Hp;
      [discriminate |].
    destruct (js_not (form_rate f) || (form_rate f <? Num 0)%js) eqn:Hr;
      [discriminate |].
    destruct (form_startDate f) as [d |] eqn:Hd; [| discriminate].
    intros _.
    apply ScriptNewFacts.number_check_principal in Hp as (p & Hp & Hp0).
    apply ScriptNewFacts.number_check_rate in Hr as (r & Hr & Hr0).
    exists p, r, d. auto 10.
  - intros (p & r & d & Hn & Hp & Hp0 & Hr & Hr0 & Hd).
    rewrite Hn.
    replace (js_not (form_principal f) || (form_principal f <=? Num 0)%js) with false
      by (symmetry; apply ScriptNewFacts.number_check_principal; rewrite Hp; eauto).
    replace (js_not (form_rate f) || (form_rate f <? Num 0)%js) with false
      by (symmetry; apply ScriptNewFacts.number_check_rate; rewrite Hr; eauto).
    rewrite Hd. reflexivity.
Qed.

(** * The properties of the specification *)

Import Invariants.

(** C1.  For a principal [p > 0], a monthly rate [r >= 0] in percent and a
    month count [m > 0], the engine returns the simple interest
    [p * (r/100) * m], the compound interest [p * ((1 + r/100)^m - 1)] with
    the real power [Rpower] (so [m] need not be whole), and the totals
    [p + simple] and [p + compound]; the database-backed shells compute the
    same four formulas and round each result to two decimals. *)
Theorem interest_formulas (p r m : R) :
  0 < p -> 0 <= r -> 0 < m ->
  let simple := p * (r / 100) * m in
  let compound := p * (Rpower (1 + r / 100) m - 1) in
  interest (Num p) (Num r) (Num m)
    = mkResults (Num simple) (Num compound) (Num (p + simple)) (Num (p + compound))
  /\ interest_rounded (Num p) (Num r) (Num m)
    = mkResults (Num (round2R simple)) (Num (round2R compound))
        (Num (round2R (p + round2R simple)))
        (Num (round2R (p + round2R compound))).
Proof.
  intros _ Hr _ simple compound. split.
  - now apply interest_Num.
  - now apply interest_rounded_Num.
Qed.

Lemma interest_formulas_witness :
  interest (Num 10000) (Num 5) (Num (5 / 2))
    = mkResults (Num (10000 * (5 / 100) * (5 / 2)))
        (Num (10000 * (Rpower (1 + 5 / 100) (5 / 2) - 1)))
        (Num (10000 + 10000 * (5 / 100) * (5 / 2)))
        (Num (10000 + 10000 * (Rpower (1 + 5 / 100) (5 / 2) - 1)))
  /\ interest_rounded (Num 10000) (Num 5) (Num (5 / 2))
    = mkResults (Num (round2R (10000 * (5 / 100) * (5 / 2))))
        (Num (round2R (10000 * (Rpower (1 + 5 / 100) (5 / 2) - 1))))
        (Num (round2R (10000 + round2R (10000 * (5 / 100) * (5 / 2)))))
        (Num (round2R (10000 + round2R (10000 * (Rpower (1 + 5 / 100) (5 / 2) - 1))))).
Proof.
  apply (interest_formulas 10000 5 (5 / 2)); lra.
Defined.

(** C2.  When the end date is not earlier than the start date, the month
    span is [whole + dayDiff / 30], with
    [whole = (end.year - start.year) * 12 + (end.month - start.month)] on the
    month indices 0..11 and [dayDiff = end.day - start.day], which may be
    negative.  That the value may be fractional, and may be [<= 0] although
    the end date is not earlier, is shown by [monthsBetween_fractional] and
    [monthsBetween_zero_next_day]; by [monthsBetween_nonneg] it is never
    negative between two dates of the calendar. *)
Theorem monthsBetween_formula (startDate endDate : Date) :
  Date_lt endDate startDate = false ->
  let whole :=
    ((getFullYear endDate - getFullYear startDate) * 12
     + (getMonth endDate - getMonth startDate))%Z in
  let dayDiff := (getDate endDate - getDate startDate)%Z in
  monthsBetween startDate endDate = IZR whole + IZR dayDiff / 30.
Proof.
  intros H whole dayDiff. now apply monthsBetween_unguarded.
Qed.

Lemma monthsBetween_formula_witness :
  monthsBetween (mkDate 2024 1 31) (mkDate 2024 3 1) = IZR 2 + IZR (-30) / 30.
Proof.
  apply (monthsBetween_formula (mkDate 2024 1 31) (mkDate 2024 3 1)).
  reflexivity.
Defined.

(** C3, as stated, fails on the month span: the shell rounds the span to
    two decimals first and computes the interest from the rounded span.  For
    10000 at 5 percent over one day the span [1/30] is rounded to [0.03] and
    the simple interest sent is [15.00], while the formula on the span
    itself gives [16.666...], that is [16.67] once rounded. *)
Lemma rounded_span_feeds_interest :
  let span := monthsBetween (mkDate 2024 1 1) (mkDate 2024 1 2) in
  exists (upd : ScriptDb.UpdateData) (shown : Results),
    ScriptDb.calculateInterest (Some (mkDate 2024 1 2)) "given" "t1" Samples.db_page
    = ScriptDb.Put 7 upd shown
    /\ ScriptDb.upd_simpleInterest upd = Num 15
    /\ round2 (res_simpleInterest (interest (Num 10000) (Num 5) (Num span)))
       = Num (1667 / 100)
    /\ ScriptDb.upd_simpleInterest upd
       <> round2 (res_simpleInterest (interest (Num 10000) (Num 5) (Num span))).
Proof.
  cbv zeta.
  assert (Hfull : round2 (res_simpleInterest
                            (interest (Num 10000) (Num 5)
                               (Num (monthsBetween (mkDate 2024 1 1) (mkDate 2024 1 2)))))
                  = Num (1667 / 100)).
  { rewrite monthsBetween_one_day, interest_Num by lra.
    cbn [res_simpleInterest]. rewrite round2_Num.
    rewrite (round2R_eq _ 1667); [reflexivity |]. simpl; lra. }
  exists Samples.db_one_day_update, Samples.db_one_day_results.
  split; [exact ScriptDbFacts.db_one_day_request |].
  destruct ScriptDbFacts.db_one_day_simple as [_ Hs].
  rewrite Hs, Hfull. repeat split. intros [= H]. lra.
Qed.

(** C3, amended.  In the database-backed shell the month count sent to the
    store is the month span rounded to two decimals; the simple and the
    compound interest sent are the formula values at that rounded month
    count, each rounded to two decimals; each total sent is the principal
    plus the rounded interest, rounded to two decimals again; the four
    values handed to the display are the four values sent, and each has at
    most two decimals. *)
Theorem rounded_outputs_persisted (field : option Date)
    (interestType nowIso : string) (st : ScriptDb.App) (editId : Z)
    (upd : ScriptDb.UpdateData) (shown : Results) :
  ScriptDb.calculateInterest field interestType nowIso st = ScriptDb.Put editId upd shown ->
  exists (investment : ScriptDb.Investment) (e : Date),
    field = Some e
    /\ ScriptDb.find_investment editId (ScriptDb.history st) = Some investment
    /\ let P := ScriptDb.principal investment in
       let months := round2 (Num (monthsBetween (ScriptDb.start_date investment) e)) in
       let full := interest P (ScriptDb.rate investment) months in
       ScriptDb.upd_months upd = months
       /\ ScriptDb.upd_simpleInterest upd = round2 (res_simpleInterest full)
       /\ ScriptDb.upd_compoundInterest upd = round2 (res_compoundInterest full)
       /\ ScriptDb.upd_totalSimple upd = round2 (P + ScriptDb.upd_simpleInterest upd)%js
       /\ ScriptDb.upd_totalCompound upd
          = round2 (P + ScriptDb.upd_compoundInterest upd)%js
       /\ shown = mkResults (ScriptDb.upd_simpleInterest upd)
                    (ScriptDb.upd_compoundInterest upd)
                    (ScriptDb.upd_totalSimple upd) (ScriptDb.upd_totalCompound upd)
       /\ two_decimals (ScriptDb.upd_simpleInterest upd)
       /\ two_decimals (ScriptDb.upd_compoundInterest upd)
       /\ two_decimals (ScriptDb.upd_totalSimple upd)
       /\ two_decimals (ScriptDb.upd_totalCompound upd).
Proof.
  intros H.
  apply ScriptDbFacts.db_calculateInterest_put in H
    as (investment & e & Hfield & Hf & _ & _ & -> & ->).
  exists investment, e. split; [assumption |]. split; [assumption |].
  cbv zeta. unfold interest_rounded, interest.
  cbn [ScriptDb.upd_months ScriptDb.upd_simpleInterest ScriptDb.upd_compoundInterest
       ScriptDb.upd_totalSimple ScriptDb.upd_totalCompound
       res_simpleInterest res_compoundInterest res_totalSimple res_totalCompound].
  repeat split; apply round2_two_decimals.
Qed.

Lemma rounded_outputs_persisted_witness :
  exists (investment : ScriptDb.Investment) (e : Date),
    Some (mkDate 2024 1 2) = Some e
    /\ ScriptDb.find_investment 7 (ScriptDb.history Samples.db_page) = Some investment
    /\ ScriptDb.upd_months Samples.db_one_day_update
       = round2 (Num (monthsBetween (ScriptDb.start_date investment) e))
    /\ ScriptDb.upd_simpleInterest Samples.db_one_day_update
       = round2 (res_simpleInterest
                   (interest (ScriptDb.principal investment) (ScriptDb.rate investment)
                      (round2 (Num (monthsBetween (ScriptDb.start_date investment) e))))).
Proof.
  destruct (rounded_outputs_persisted (Some (mkDate 2024 1 2)) "given" "t1"
              Samples.db_page 7 Samples.db_one_day_update Samples.db_one_day_results
              ScriptDbFacts.db_one_day_request)
    as (investment & e & Hfield & Hfind & Hm & Hs & _).
  exists investment, e. auto.
Defined.

(** C4, as stated, fails on the two totals: a record that has no end date
    yet, as [addInvestment] stores it, has both totals equal to the
    principal, which is not zero. *)
Lemma totals_set_at_creation :
  exists inv : ScriptNew.Investment,
    In inv (ScriptNew.history
              (ScriptNew.run [ScriptNew.Add Samples.savings_form 1 "t0"]))
    /\ ScriptNew.endDate inv = None
    /\ ScriptNew.totalSimple inv = Num 10000
    /\ ScriptNew.totalCompound inv = Num 10000
    /\ ~ derived_fields_zero inv.
Proof.
  exists Samples.savings_created. rewrite ScriptNewRuns.run_add.
  split; [now left |]. do 3 (split; [reflexivity |]).
  intros (_ & _ & _ & H & _). cbn in H. injection H as H. lra.
Qed.

(** C4, amended.  In every state the page can reach, a stored record
    without an end date has its month count and both interests at zero and
    both totals at the principal; a stored record with an end date has its
    month count, both interests and both totals set to the values of one and
    the same calculation, for a positive month span.  No record has only
    some of the five set. *)
Theorem derived_fields_set_together (es : list ScriptNew.Event)
    (inv : ScriptNew.Investment) :
  In inv (ScriptNew.history (ScriptNew.run es)) -> derived_fields_together inv.
Proof.
  revert inv. apply run_invariant.
  - intros now name nowStr p r d _ _ _. unfold derived_fields_together.
    cbn. auto.
  - intros inv0 e nowStr _ _ Hm months. unfold derived_fields_together.
    cbn. auto.
Qed.

Lemma derived_fields_set_together_witness :
  derived_fields_together Samples.savings_calculated.
Proof.
  apply (derived_fields_set_together
           [ScriptNew.Add Samples.savings_form 1 "t0"; ScriptNew.Edit 1;
            ScriptNew.Calculate (Some (mkDate 2024 4 1)) "t1"]).
  rewrite ScriptNewRuns.run_add_edit_calculate. now left.
Defined.

(** C5.  When the end argument is strictly earlier than the start argument,
    [monthsBetween] returns exactly [0], by its guard and not by the day
    formula. *)
Theorem monthsBetween_inverted (startDate endDate : Date) :
  Date_lt endDate startDate = true -> monthsBetween startDate endDate = 0.
Proof.
  exact (monthsBetween_guarded startDate endDate).
Qed.

(** The fourth scenario of the specification; the day formula would have
    given [-1] there. *)
Lemma monthsBetween_inverted_witness :
  monthsBetween (mkDate 2024 1 1) (mkDate 2023 12 1) = 0
  /\ IZR ((2023 - 2024) * 12 + (12 - 1 - (1 - 1))) + IZR (1 - 1) / 30 = -1.
Proof.
  split.
  - apply (monthsBetween_inverted (mkDate 2024 1 1) (mkDate 2023 12 1)).
    reflexivity.
  - simpl. lra.
Defined.

Module InBinary64.
Import Floats.
Local Open Scope float_scope.
#[local] Set Warnings "-inexact-float".

(** C6, as stated, fails in binary64.  The form accepts the rate [1e-14];
    [1 + 1e-14 / 100] rounds to one, the power is one, and over two months
    on 10000 the compound interest is exactly zero while the simple
    interest is positive. *)
Lemma compound_below_simple :
  B64.principal_refused 10000 = false /\ B64.rate_refused 1e-14 = false
  /\ (1 + 1e-14 / 100 =? 1) = true
  /\ exists res : B64.Results,
       B64.interest 10000 1e-14 2 = Some res
       /\ (B64.compoundInterest res =? 0) = true
       /\ (0 <? B64.simpleInterest res) = true
       /\ (B64.simpleInterest res <? B64.compoundInterest res) = false.
Proof.
  do 3 (split; [vm_compute; reflexivity |]).
  exists (B64.mkResults (10000 * (1e-14 / 100) * 2) 0
            (10000 + 10000 * (1e-14 / 100) * 2) 10000).
  repeat split; vm_compute; reflexivity.
Qed.

(** In binary64 the step of one month is [1] only up to the last digit as
    soon as the days of the month differ: from the 1st of January to the
    13th of January and of February the spans are [0.4] and [1.4], and
    their difference is not [1]. *)
Example month_step_last_digit :
  (B64.monthsBetween (mkDate 2024 1 1) (mkDate 2024 2 13)
   - B64.monthsBetween (mkDate 2024 1 1) (mkDate 2024 1 13) =? 1) = false
  /\ (B64.monthsBetween (mkDate 2024 1 1) (mkDate 2024 2 13)
      - B64.monthsBetween (mkDate 2024 1 1) (mkDate 2024 1 13) <? 1) = true.
Proof.
  split; vm_compute; reflexivity.
Qed.

End InBinary64.

(** C6, amended.  For a principal [p > 0], a rate [r > 0] and more than one
    month, the exact value of the compound-interest formula of the engine,
    [p * ((1 + r/100)^m - 1)] over the real numbers, is strictly greater
    than the exact value of its simple-interest formula [p * (r/100) * m].
    ([interest] evaluates the two formulas over the real numbers; what the
    engine returns are these values up to the rounding of binary64, which
    can reverse the order, as the example above shows.) *)
Theorem exact_compound_exceeds_simple (p r m : R) :
  0 < p -> 0 < r -> 1 < m ->
  exists s c : R,
    interest (Num p) (Num r) (Num m)
    = mkResults (Num s) (Num c) (Num (p + s)) (Num (p + c))
    /\ s = p * (r / 100) * m
    /\ c = p * (Rpower (1 + r / 100) m - 1)
    /\ s < c.
Proof.
  intros Hp Hr Hm.
  exists (p * (r / 100) * m), (p * (Rpower (1 + r / 100) m - 1)).
  split; [apply interest_Num; lra |]. do 2 (split; [reflexivity |]).
  pose proof (Rpower_Bernoulli (r / 100) m) as HB.
  assert (H : 0 < r / 100) by lra. specialize (HB H Hm). nra.
Qed.

Lemma exact_compound_exceeds_simple_witness :
  exists s c : R,
    interest (Num 10000) (Num 5) (Num 3)
    = mkResults (Num s) (Num c) (Num (10000 + s)) (Num (10000 + c))
    /\ s = 10000 * (5 / 100) * 3
    /\ c = 10000 * (Rpower (1 + 5 / 100) 3 - 1)
    /\ s < c.
Proof.
  apply (exact_compound_exceeds_simple 10000 5 3); lra.
Defined.

(** C7.  A calculation attempt on a record with the end date missing, or
    earlier than the start date, or with a month span [<= 0], is rejected
    with an error message: in the local-storage shell the whole state (the
    history with every field of every record, and the selection) is the
    state before the attempt and nothing is displayed; in the
    database-backed shell the call returns before any request is sent. *)
Theorem rejected_calculation_changes_nothing :
  (forall (field : option Date) (nowStr : string) (st : ScriptNew.App)
          (cur : Z) (investment : ScriptNew.Investment),
      ScriptNew.currentEditId st = Some cur -> cur <> 0%Z ->
      ScriptNew.find_investment cur (ScriptNew.history st) = Some investment ->
      (field = None
       \/ exists e, field = Some e
            /\ (Date_lt e (ScriptNew.startDate investment) = true
                \/ monthsBetween (ScriptNew.startDate investment) e <= 0)) ->
      exists msg,
        ScriptNew.calculateInterest field nowStr st = (st, mkModal msg error, None))
  /\ (forall (field : option Date) (interestType nowIso : string) (st : ScriptDb.App)
             (cur : Z) (investment : ScriptDb.Investment),
      ScriptDb.currentEditId st = Some cur -> cur <> 0%Z ->
      ScriptDb.find_investment cur (ScriptDb.history st) = Some investment ->
      (field = None
       \/ exists e, field = Some e
            /\ (Date_lt e (ScriptDb.start_date investment) = true
                \/ monthsBetween (ScriptDb.start_date investment) e <= 0)) ->
      exists msg,
        ScriptDb.calculateInterest field interestType nowIso st
        = ScriptDb.CalcRejected (mkModal msg error)).
Proof.
  split.
  - exact ScriptNewFacts.calculateInterest_rejects.
  - exact ScriptDbFacts.db_calculateInterest_rejects.
Qed.

(** An end on the 1st of February for a start on the 31st of January is
    not earlier than the start, its span is [0], and it is rejected. *)
Lemma rejected_calculation_changes_nothing_witness :
  exists msg,
    ScriptNew.calculateInterest (Some (mkDate 2024 2 1)) "t1" Samples.month_end_page
    = (Samples.month_end_page, mkModal msg error, None).
Proof.
  eapply (proj1 rejected_calculation_changes_nothing); try reflexivity.
  - discriminate.
  - right. exists (mkDate 2024 2 1). split; [reflexivity |]. right.
    apply monthsBetween_zero_next_day.
Defined.

(** C8.  Record creation refuses a rate of exactly zero, which the
    specification accepts.  For a form with a name, a positive principal,
    the rate [0] and a start date, the three shells show the rate error and
    create nothing, although the comparison that follows ([rate < 0]) and
    the colouring of the field ([validateInput]) both take zero for a valid
    rate.  For every other form the checks are those of the specification:
    see [addInvestment_cases], [addInvestment_accepts] and
    [validateStepOne_accepts]. *)
Theorem zero_rate_rejected (now : Z) (nowStr : string) (st : ScriptNew.App) :
  let f := mkForm "Savings" (Num 10000) (Num 0) (Some (mkDate 2024 1 1)) "given" in
  let refused := mkModal "Please enter a valid interest rate (per month)." error in
  ScriptNew.addInvestment f now nowStr st = (st, refused)
  /\ ScriptDb.addInvestment f now nowStr = ScriptDb.AddRejected refused
  /\ ScriptLegacy.validateStepOne f = (false, Some refused)
  /\ (form_rate f <? Num 0)%js = false
  /\ ScriptNew.validateInput "rate" (form_rate f) = false.
Proof.
  cbv zeta.
  assert (Hp : js_not (Num 10000) || (Num 10000 <=? Num 0)%js = false).
  { apply ScriptNewFacts.number_check_principal. exists 10000. split; [easy | lra]. }
  assert (Hr : js_not (Num 0) = true) by now apply js_not_Num.
  assert (Hlt : (Num 0 <? Num 0)%js = false) by (apply js_lt_Num_false; lra).
  unfold ScriptNew.addInvestment, ScriptDb.addInvestment,
    ScriptLegacy.validateStepOne, ScriptNew.validateInput.
  cbn [form_name form_principal form_rate form_startDate form_interestType].
  rewrite Hp, Hr, Hlt. repeat split; reflexivity.
Qed.

(** C9, as stated, fails below the guard: while the end date is earlier
    than the start date the span stays [0], month after month. *)
Lemma monthsBetween_month_step_inverted :
  let startDate := mkDate 2024 6 15 in
  let endDate := mkDate 2024 1 15 in
  let endDate' := mkDate 2024 2 15 in
  valid_date startDate = true /\ valid_date endDate = true
  /\ valid_date endDate' = true
  /\ day endDate = day startDate /\ day endDate' = day endDate
  /\ (year endDate' * 12 + month endDate' = year endDate * 12 + month endDate + 1)%Z
  /\ monthsBetween startDate endDate' <> monthsBetween startDate endDate + 1.
Proof.
  cbv zeta. repeat (split; [reflexivity |]).
  rewrite !monthsBetween_guarded by reflexivity. lra.
Qed.

(** C9 fails as well when the two end dates are taken as they are written
    and the host is west of UTC, where the getters report the day before:
    for a start written 2024-01-15 and end dates written 2024-03-01 and
    2024-04-01 the local dates are the 14th of January, the 29th of February
    and the 31st of March, and the spans [1.5] and [2.5667]. *)
Example month_step_west_of_UTC :
  let startDate := local_date true (mkDate 2024 1 15) in
  let endDate := local_date true (mkDate 2024 3 1) in
  let endDate' := local_date true (mkDate 2024 4 1) in
  Date_lt endDate startDate = false
  /\ monthsBetween startDate endDate = 3 / 2
  /\ monthsBetween startDate endDate' = 2 + 17 / 30
  /\ monthsBetween startDate endDate' <> monthsBetween startDate endDate + 1.
Proof.
  cbv zeta.
  change (local_date true (mkDate 2024 1 15)) with (mkDate 2024 1 14).
  change (local_date true (mkDate 2024 3 1)) with (mkDate 2024 2 29).
  change (local_date true (mkDate 2024 4 1)) with (mkDate 2024 3 31).
  split; [reflexivity |].
  assert (H1 : monthsBetween (mkDate 2024 1 14) (mkDate 2024 2 29) = 3 / 2).
  { rewrite monthsBetween_unguarded by reflexivity. span_calc. }
  assert (H2 : monthsBetween (mkDate 2024 1 14) (mkDate 2024 3 31) = 2 + 17 / 30).
  { rewrite monthsBetween_unguarded by reflexivity. span_calc. }
  rewrite H1, H2. repeat split. lra.
Qed.

(** C9, amended.  For a start date and an end date that is not earlier and
    falls on the same day of the month, both as the getters of the [Date]
    objects report them, moving the end date one calendar month forward,
    the day of the month unchanged, increases the month span by exactly
    [1]: the two spans are the whole numbers [k] and [k + 1] (the day
    difference is zero, so that nothing is rounded in binary64 either). *)
Theorem monthsBetween_whole_month_step (startDate endDate endDate' : Date) :
  (0 <= getMonth endDate <= 11)%Z -> (0 <= getMonth endDate' <= 11)%Z ->
  getDate endDate = getDate startDate ->
  getDate endDate' = getDate endDate ->
  (getFullYear endDate' * 12 + getMonth endDate'
   = getFullYear endDate * 12 + getMonth endDate + 1)%Z ->
  Date_lt endDate startDate = false ->
  exists k : Z,
    monthsBetween startDate endDate = IZR k
    /\ monthsBetween startDate endDate' = IZR (k + 1)
    /\ monthsBetween startDate endDate' = monthsBetween startDate endDate + 1.
Proof.
  unfold getFullYear, getMonth, getDate. intros Hm Hm' Hday Hday' Hnext Hge.
  assert (Hge' : Date_lt endDate' startDate = false).
  { apply Date_lt_false. apply Date_lt_false in Hge. lia. }
  exists ((year endDate - year startDate) * 12
          + (month endDate - 1 - (month startDate - 1)))%Z.
  rewrite !monthsBetween_unguarded by assumption.
  unfold getFullYear, getMonth, getDate. rewrite Hday', Hday, Z.sub_diag.
  replace ((year endDate' - year startDate) * 12
           + (month endDate' - 1 - (month startDate - 1)))%Z
    with ((year endDate - year startDate) * 12
          + (month endDate - 1 - (month startDate - 1)) + 1)%Z by lia.
  rewrite !plus_IZR. repeat split; simpl; lra.
Qed.

Lemma monthsBetween_whole_month_step_witness :
  exists k : Z,
    monthsBetween (mkDate 2023 11 20) (mkDate 2023 12 20) = IZR k
    /\ monthsBetween (mkDate 2023 11 20) (mkDate 2024 1 20) = IZR (k + 1)
    /\ monthsBetween (mkDate 2023 11 20) (mkDate 2024 1 20)
       = monthsBetween (mkDate 2023 11 20) (mkDate 2023 12 20) + 1.
Proof.
  apply (monthsBetween_whole_month_step
           (mkDate 2023 11 20) (mkDate 2023 12 20) (mkDate 2024 1 20));
    unfold getFullYear, getMonth, getDate; simpl; try lia; reflexivity.
Defined.

(** C10.  A submission whose principal or rate parses to [NaN] is rejected
    by record creation, which shows an error and creates no record (no
    change of the history, no request).  Hence the principal and the rate of
    every stored record of the local-storage shell, and of every record the
    database-backed shell posts, are real numbers, and whenever the
    local-storage shell reaches the interest formulas it evaluates them on a
    real principal, rate and month count. *)
Theorem nan_never_stored :
  (forall (f : Form) (now : Z) (nowStr : string) (st : ScriptNew.App),
      form_principal f = NaN \/ form_rate f = NaN ->
      exists msg, ScriptNew.addInvestment f now nowStr st = (st, mkModal msg error))
  /\ (forall (f : Form) (now : Z) (nowIso : string),
      form_principal f = NaN \/ form_rate f = NaN ->
      exists msg,
        ScriptDb.addInvestment f now nowIso = ScriptDb.AddRejected (mkModal msg error))
  /\ (forall (es : list ScriptNew.Event) (inv : ScriptNew.Investment),
      In inv (ScriptNew.history (ScriptNew.run es)) -> stored_numbers inv)
  /\ (forall (f : Form) (now : Z) (nowIso : string) (inv : ScriptDb.NewInvestment),
      ScriptDb.addInvestment f now nowIso = ScriptDb.Posted inv ->
      exists p r : R,
        ScriptDb.new_principal inv = Num p /\ ScriptDb.new_rate inv = Num r
        /\ 0 < p /\ 0 < r)
  /\ (forall (es : list ScriptNew.Event) (field : option Date) (nowStr : string)
             (res : Results),
      snd (ScriptNew.calculateInterest field nowStr (ScriptNew.run es)) = Some res ->
      exists p r m : R,
        0 < p /\ 0 < r /\ 0 < m /\ res = interest (Num p) (Num r) (Num m)).
Proof.
  assert (Hinv : forall es inv,
             In inv (ScriptNew.history (ScriptNew.run es)) -> stored_numbers inv).
  { intros es. apply run_invariant.
    - intros now name nowStr p r d _ Hp Hr. exists p, r. cbn. auto.
    - intros inv e nowStr (p & r & Hp & Hr & Hp0 & Hr0) _ _ months.
      exists p, r. cbn. auto. }
  split; [| split; [| split; [exact Hinv | split]]].
  - intros f now nowStr st Hnan.
    destruct (ScriptNewFacts.addInvestment_cases f now nowStr st)
      as [H | (p & r & d & _ & Hp & _ & Hr & _)]; [exact H |].
    destruct Hnan as [Hnan | Hnan]; congruence.
  - intros f now nowIso Hnan.
    destruct (ScriptDbFacts.db_addInvestment_cases f now nowIso)
      as [H | (p & r & d & _ & Hp & _ & Hr & _)]; [exact H |].
    destruct Hnan as [Hnan | Hnan]; congruence.
  - intros f now nowIso inv Hpost.
    destruct (ScriptDbFacts.db_addInvestment_cases f now nowIso)
      as [[msg H] | (p & r & d & _ & _ & Hp0 & _ & Hr0 & _ & _ & H)];
      rewrite H in Hpost; [discriminate |].
    injection Hpost as <-. exists p, r. cbn. auto.
  - intros es field nowStr res Hres.
    destruct (ScriptNewFacts.calculateInterest_cases field nowStr (ScriptNew.run es))
      as [[msg H] | (cur & investment & e & _ & _ & _ & Hf & _ & Hm & H)];
      rewrite H in Hres; [discriminate |].
    cbn [snd] in Hres. injection Hres as <-.
    unfold ScriptNew.find_investment in Hf. apply find_some in Hf as [Hin _].
    destruct (Hinv es investment Hin) as (p & r & Hp & Hr & Hp0 & Hr0).
    exists p, r, (monthsBetween (ScriptNew.startDate investment) e).
    rewrite Hp, Hr. auto.
Qed.

Lemma nan_never_stored_witness :
  exists msg,
    ScriptNew.addInvestment
      (mkForm "Savings" NaN (Num 5) (Some (mkDate 2024 1 1)) "given") 1 "t0"
      ScriptNew.init
    = (ScriptNew.init, mkModal msg error).
Proof.
  apply (proj1 nan_never_stored). left. reflexivity.
Defined.

(** * Further properties of the code *)

(** ** The period resolver *)

Lemma valid_date_bounds (d : Date) :
  valid_date d = true -> (1 <= month d <= 12 /\ 1 <= day d <= 31)%Z.
Proof.
  unfold valid_date. rewrite !andb_true_iff, !Z.leb_le.
  intros [[[Hm1 Hm2] Hd1] Hd2]. revert Hd2. unfold days_in_month.
  repeat match goal with |- context [if ?b then _ else _] => destruct b end; lia.
Qed.

(** Every month span is a whole number of thirtieths. *)
Lemma monthsBetween_thirtieths (startDate endDate : Date) :
  exists k : Z, monthsBetween startDate endDate = IZR k / 30.
Proof.
  unfold monthsBetween. destruct (Date_lt endDate startDate).
  - exists 0%Z. lra.
  - cbv zeta.
    set (w := ((getFullYear endDate - getFullYear startDate) * 12
               + (getMonth endDate - getMonth startDate))%Z).
    set (dd := (getDate endDate - getDate startDate)%Z).
    exists (30 * w + dd)%Z. rewrite plus_IZR, mult_IZR. lra.
Qed.

Lemma monthsBetween_positive_step (startDate endDate : Date) :
  0 < monthsBetween startDate endDate -> 1 / 30 <= monthsBetween startDate endDate.
Proof.
  destruct (monthsBetween_thirtieths startDate endDate) as [k ->]. intros Hk.
  assert (Hz : (1 <= k)%Z).
  { apply Z.lt_pred_le. apply lt_IZR. simpl. lra. }
  apply IZR_le in Hz. lra.
Qed.

(** X1.  The span from a date to itself is zero. *)
Theorem span_of_same_date (d : Date) : monthsBetween d d = 0.
Proof.
  rewrite monthsBetween_unguarded by apply Date_lt_irrefl.
  unfold getFullYear, getMonth, getDate.
  rewrite !Z.sub_diag. simpl. lra.
Qed.

(** X2.  Between two dates of the calendar [monthsBetween] is never
    negative, in whatever order they are given: before the start date the
    guard returns [0], and from the start date on the day difference is at
    least [-30] as soon as a month has passed. *)
Theorem span_never_negative (startDate endDate : Date) :
  valid_date startDate = true -> valid_date endDate = true ->
  0 <= monthsBetween startDate endDate.
Proof.
  intros Hs He.
  apply valid_date_bounds in Hs. apply valid_date_bounds in He.
  unfold monthsBetween.
  destruct (Date_lt endDate startDate) eqn:Hlt; [lra |].
  apply Date_lt_false in Hlt. cbv zeta. unfold getFullYear, getMonth, getDate.
  set (w := ((year endDate - year startDate) * 12
             + (month endDate - 1 - (month startDate - 1)))%Z).
  set (dd := (day endDate - day startDate)%Z).
  assert (Hz : (0 <= 30 * w + dd)%Z) by (unfold w, dd; lia).
  apply IZR_le in Hz. rewrite plus_IZR, mult_IZR in Hz. lra.
Qed.

Lemma span_never_negative_witness :
  0 <= monthsBetween (mkDate 2024 1 15) (mkDate 2024 1 10).
Proof.
  apply (span_never_negative (mkDate 2024 1 15) (mkDate 2024 1 10)); reflexivity.
Defined.





(** X5.  Rounding the span to two decimals first, as the database-backed
    shell does, never changes the outcome of the test [months <= 0]: the two
    families of shells refuse the same end dates. *)
Theorem rounded_span_test_agrees (startDate endDate : Date) :
  (round2 (Num (monthsBetween startDate endDate)) <=? Num 0)%js
  = (Num (monthsBetween startDate endDate) <=? Num 0)%js.
Proof.
  rewrite round2_Num.
  destruct (Rle_lt_dec (monthsBetween startDate endDate) 0) as [Hle | Hlt].
  - pose proof (round2R_nonpos _ Hle) as Hr.
    apply js_le_Num in Hle. apply js_le_Num in Hr. now rewrite Hle, Hr.
  - pose proof (monthsBetween_positive_step _ _ Hlt) as Hstep.
    assert (Hr : 0 < round2R (monthsBetween startDate endDate)).
    { unfold round2R.
      assert (Hz : (3 <= Zfloor (monthsBetween startDate endDate * 100 + / 2))%Z).
      { apply Zfloor_lub. simpl. lra. }
      apply IZR_le in Hz. lra. }
    apply js_le_Num_false in Hlt. apply js_le_Num_false in Hr. now rewrite Hlt, Hr.
Qed.

(** ** Rounding to two decimals *)




(** ** The local-storage shell: the history *)

Module ScriptNewHistory.
Import ScriptNew ScriptNewFacts Invariants.

(** A property of the state that every step keeps holds after every run. *)
Lemma run_state_invariant (Q : App -> Prop) :
  Q init -> (forall st e, Q st -> Q (step st e)) -> forall es, Q (run es).
Proof.
  intros Hinit Hstep es. unfold run. generalize init Hinit.
  induction es as [| e es IH]; intros st Hst; cbn [fold_left]; auto.
Qed.

Lemma run_snoc (es : list Event) (e : Event) : run (es ++ [e]) = step (run es) e.
Proof.
  unfold run. now rewrite fold_left_app.
Qed.

Lemma length_update_first (i : Z) (upd : Investment -> Investment)
    (h : list Investment) :
  List.length (update_first i upd h) = List.length h.
Proof.
  induction h as [| x h IH]; cbn [update_first]; [reflexivity |].
  destruct (id x =? i)%Z; cbn [List.length]; congruence.
Qed.

(** An update that keeps a projection of the records keeps it on the list. *)
Lemma map_update_first {A : Type} (proj : Investment -> A) (i : Z)
    (upd : Investment -> Investment) (h : list Investment) :
  (forall inv, proj (upd inv) = proj inv) ->
  map proj (update_first i upd h) = map proj h.
Proof.
  intros Hupd. induction h as [| x h IH]; cbn [update_first]; [reflexivity |].
  destruct (id x =? i)%Z; cbn [map]; congruence.
Qed.

Lemma history_addToHistory (investment : Investment) (st : App) :
  history (addToHistory investment st) = investment :: firstn 49 (history st).
Proof.
  unfold addToHistory; cbn [history].
  destruct (50 <? List.length (investment :: history st))%nat eqn:Hlen.
  - reflexivity.
  - apply Nat.ltb_ge in Hlen. cbn [List.length] in Hlen.
    rewrite firstn_all2 by lia. reflexivity.
Qed.

Lemma length_addToHistory (investment : Investment) (st : App) :
  (List.length (history (addToHistory investment st)) <= 50)%nat.
Proof.
  rewrite history_addToHistory. cbn [List.length].
  pose proof (firstn_le_length 49 (history st)). lia.
Qed.

(** X12.  The history never holds more than 50 records, whatever the user
    does. *)
Theorem history_at_most_50 (es : list Event) :
  (List.length (history (run es)) <= 50)%nat.
Proof.
  apply (run_state_invariant (fun st => (List.length (history st) <= 50)%nat)).
  - cbn. lia.
  - intros st e Hst. destruct e as [f now nowStr | i | field nowStr |]; cbn [step].
    + destruct (addInvestment_cases f now nowStr st)
        as [[msg ->] | (p & r & d & Hn & Hp & Hp0 & Hr & Hr0 & Hd)]; [exact Hst |].
      rewrite (addInvestment_accepts f now nowStr st p r d) by assumption.
      apply length_addToHistory.
    + unfold editInvestment. now destruct (find_investment i (history st)).
    + destruct (calculateInterest_cases field nowStr st)
        as [[msg ->] | (cur & inv & d & _ & _ & _ & _ & _ & _ & ->)]; [exact Hst |].
      cbn [fst history]. now rewrite length_update_first.
    + cbn. lia.
Qed.

(** X13.  A record that is added becomes the first of the history; the
    records before it follow in their order, and only what lies beyond the
    49th of them is dropped. *)
Theorem added_record_is_first (investment : Investment) (st : App) :
  history (addToHistory investment st) = investment :: firstn 49 (history st)
  /\ currentEditId (addToHistory investment st) = currentEditId st.
Proof.
  split; [apply history_addToHistory | reflexivity].
Qed.

(** X14.  Whatever its outcome, [calculateInterest] keeps the number and the
    order of the records and, of every record, the id, the name, the
    principal, the rate and the start date. *)
Theorem calculation_keeps_identity (field : option Date) (nowStr : string) (st : App) :
  map (fun inv => (id inv, name inv, principal inv, rate inv, startDate inv))
    (history (fst (fst (calculateInterest field nowStr st))))
  = map (fun inv => (id inv, name inv, principal inv, rate inv, startDate inv))
      (history st).
Proof.
  destruct (calculateInterest_cases field nowStr st)
    as [[msg ->] | (cur & inv & d & _ & _ & _ & _ & _ & _ & ->)]; [reflexivity |].
  cbn [fst history]. now apply map_update_first.
Qed.

(** X15.  A successful calculation clears the selection: a second attempt
    right after it is refused and changes nothing, until a record is chosen
    again with [editInvestment]. *)
Theorem calculation_clears_selection (field field' : option Date)
    (nowStr nowStr' : string) (st : App) (res : Results) :
  snd (calculateInterest field nowStr st) = Some res ->
  let st' := fst (fst (calculateInterest field nowStr st)) in
  currentEditId st' = None
  /\ calculateInterest field' nowStr' st'
     = (st', mkModal "No investment selected for editing." error, None).
Proof.
  intros Hres.
  destruct (calculateInterest_cases field nowStr st)
    as [[msg H] | (cur & inv & d & _ & _ & _ & _ & _ & _ & H)];
    rewrite H in Hres |- *; [discriminate |].
  cbn [fst]. split; reflexivity.
Qed.

Lemma calculation_clears_selection_witness :
  calculateInterest (Some (mkDate 2024 5 1)) "t2"
    (mkApp [Samples.savings_calculated] None)
  = (mkApp [Samples.savings_calculated] None,
     mkModal "No investment selected for editing." error, None).
Proof.
  pose proof (calculation_clears_selection (Some (mkDate 2024 4 1))
                (Some (mkDate 2024 5 1)) "t1" "t2"
                (mkApp [Samples.savings_created] (Some 1%Z))
                (interest (Num 10000) (Num 5)
                   (Num (monthsBetween (mkDate 2024 1 1) (mkDate 2024 4 1))))) as H.
  assert (Hcalc :
    calculateInterest (Some (mkDate 2024 4 1)) "t1"
      (mkApp [Samples.savings_created] (Some 1%Z))
    = (mkApp [Samples.savings_calculated] None,
       mkModal "Interest calculated successfully!" success,
       Some (interest (Num 10000) (Num 5)
               (Num (monthsBetween (mkDate 2024 1 1) (mkDate 2024 4 1)))))).
  { rewrite (calculateInterest_accepts (mkDate 2024 4 1) "t1" _ 1 Samples.savings_created);
      try reflexivity.
    - discriminate.
    - change (0 < monthsBetween (mkDate 2024 1 1) (mkDate 2024 4 1)).
      rewrite monthsBetween_three_months. lra. }
  rewrite Hcalc in H. apply H. reflexivity.
Defined.

End ScriptNewHistory.

(** ** The local-storage shell: recalculation, the table, the ids *)

Module ScriptNewTable.
Import ScriptNew ScriptNewFacts ScriptNewHistory Invariants.

Lemma find_update_first (i : Z) (upd : Investment -> Investment)
    (h : list Investment) (inv : Investment) :
  (forall x, id (upd x) = id x) ->
  find_investment i h = Some inv ->
  find_investment i (update_first i upd h) = Some (upd inv).
Proof.
  intros Hid. unfold find_investment.
  induction h as [| x h IH]; cbn [List.find update_first]; [discriminate |].
  destruct (id x =? i)%Z eqn:Hx.
  - intros [= ->]. cbn [List.find]. now rewrite Hid, Hx.
  - intros Hf. cbn [List.find]. rewrite Hx. now apply IH.
Qed.

Lemma update_first_twice (i : Z) (f g : Investment -> Investment)
    (h : list Investment) :
  (forall x, id (g x) = id x) ->
  update_first i f (update_first i g h) = update_first i (fun x => f (g x)) h.
Proof.
  intros Hid. induction h as [| x h IH]; cbn [update_first]; [reflexivity |].
  destruct (id x =? i)%Z eqn:Hx; cbn [update_first].
  - now rewrite Hid, Hx.
  - rewrite Hx. now f_equal.
Qed.

Lemma update_first_ext (i : Z) (f g : Investment -> Investment) (h : list Investment) :
  (forall x, f x = g x) -> update_first i f h = update_first i g h.
Proof.
  intros Hfg. induction h as [| x h IH]; cbn [update_first]; [reflexivity |].
  destruct (id x =? i)%Z; congruence.
Qed.

Lemma editInvestment_found (i : Z) (st : App) (inv : Investment) :
  find_investment i (history st) = Some inv ->
  editInvestment i st = mkApp (history st) (Some i).
Proof.
  intros Hf. unfold editInvestment. now rewrite Hf.
Qed.

(** A calculation on a record that already has one starts from the same
    identity fields, and writes every derived field again. *)
Lemma recalculation (i : Z) (e1 e2 : Date) (t1 t2 : string) (st : App)
    (inv : Investment) :
  i <> 0%Z ->
  find_investment i (history st) = Some inv ->
  Date_lt e2 (startDate inv) = false ->
  0 < monthsBetween (startDate inv) e2 ->
  calculateInterest (Some e2) t2
    (editInvestment i (fst (fst (calculateInterest (Some e1) t1 (editInvestment i st)))))
  = calculateInterest (Some e2) t2 (editInvestment i st).
Proof.
  intros Hi Hf Hlt Hm.
  rewrite (editInvestment_found i st inv Hf).
  rewrite (calculateInterest_accepts e2 t2 (mkApp (history st) (Some i)) i inv);
    try assumption; try reflexivity.
  destruct (calculateInterest_cases (Some e1) t1 (mkApp (history st) (Some i)))
    as [[msg ->] | (cur & inv1 & d & Hcur & _ & Hd & Hf1 & Hlt1 & Hm1 & ->)].
  - cbn [fst]. rewrite (editInvestment_found i (mkApp (history st) (Some i)) inv Hf).
    cbn [history].
    now rewrite (calculateInterest_accepts e2 t2 (mkApp (history st) (Some i)) i inv).
  - cbn [currentEditId] in Hcur. injection Hcur as <-. injection Hd as <-.
    cbn [history] in Hf1. rewrite Hf in Hf1. injection Hf1 as <-.
    cbn [fst].
    set (upd1 := set_calculation e1 (Num (monthsBetween (startDate inv) e1))
                   (interest (principal inv) (rate inv)
                      (Num (monthsBetween (startDate inv) e1))) t1).
    assert (Hf' : find_investment i (update_first i upd1 (history st)) = Some (upd1 inv))
      by (now apply find_update_first).
    rewrite (editInvestment_found i _ (upd1 inv)) by exact Hf'.
    rewrite (calculateInterest_accepts e2 t2 _ i (upd1 inv));
      try assumption; try reflexivity.
    cbn [history startDate principal rate upd1 set_calculation].
    rewrite update_first_twice by reflexivity.
    rewrite (update_first_ext i _
               (set_calculation e2 (Num (monthsBetween (startDate inv) e2))
                  (interest (principal inv) (rate inv)
                     (Num (monthsBetween (startDate inv) e2))) t2)
               (history st)); reflexivity.
Qed.

(** X16.  A recalculation overwrites: choosing a record, calculating with
    one end date, choosing it again and calculating with a second end date
    leaves the page exactly as calculating with the second end date alone
    (same records, same message, same results), whether or not the first
    calculation was accepted. *)
Theorem recalculation_overwrites (i : Z) (e1 e2 : Date) (t1 t2 : string) (st : App)
    (inv : Investment) :
  i <> 0%Z ->
  find_investment i (history st) = Some inv ->
  Date_lt e2 (startDate inv) = false ->
  0 < monthsBetween (startDate inv) e2 ->
  calculateInterest (Some e2) t2
    (editInvestment i (fst (fst (calculateInterest (Some e1) t1 (editInvestment i st)))))
  = calculateInterest (Some e2) t2 (editInvestment i st).
Proof.
  exact (recalculation i e1 e2 t1 t2 st inv).
Qed.

Lemma recalculation_overwrites_witness :
  let st := mkApp [Samples.savings_created] None in
  calculateInterest (Some (mkDate 2024 4 1)) "t1"
    (editInvestment 1
       (fst (fst (calculateInterest (Some (mkDate 2024 2 15)) "t0"
                    (editInvestment 1 st)))))
  = calculateInterest (Some (mkDate 2024 4 1)) "t1" (editInvestment 1 st).
Proof.
  cbv zeta.
  apply (recalculation_overwrites 1 (mkDate 2024 2 15) (mkDate 2024 4 1) "t0" "t1"
           (mkApp [Samples.savings_created] None) Samples.savings_created);
    try reflexivity.
  - discriminate.
  - change (0 < monthsBetween (mkDate 2024 1 1) (mkDate 2024 4 1)).
    rewrite monthsBetween_three_months. lra.
Defined.

End ScriptNewTable.

Module ScriptNewRows.
Import ScriptNew ScriptNewFacts ScriptNewHistory Invariants.

Lemma positive_or_dash_zero : positive_or_dash (Num 0) = None.
Proof.
  unfold positive_or_dash.
  replace (Num 0 <? Num 0)%js with false; [reflexivity |].
  symmetry. apply js_lt_Num_false. lra.
Qed.

Lemma positive_or_dash_positive (x : R) : 0 < x -> positive_or_dash (Num x) = Some (Num x).
Proof.
  intros Hx. unfold positive_or_dash. apply js_lt_Num in Hx. now rewrite Hx.
Qed.

(** Both invariants of the stored records at once. *)
Lemma stored_record_invariants (es : list Event) (inv : Investment) :
  In inv (history (run es)) -> derived_fields_together inv /\ stored_numbers inv.
Proof.
  revert inv. apply run_invariant.
  - intros now name nowStr p r d _ Hp Hr. split.
    + unfold derived_fields_together. cbn. auto.
    + exists p, r. cbn. auto.
  - intros inv e nowStr [_ (p & r & Hp & Hr & Hp0 & Hr0)] _ Hm months. split.
    + unfold derived_fields_together. cbn. auto.
    + exists p, r. cbn. auto.
Qed.

(** X17.  In every table the page can show, a row is of one of two kinds:
    a pending row, with ['-'] for the end date, the months and both
    interests, and the edit button; or a calculated row, with an end date,
    a positive month count that is shown, and the text "Calculated".  No row
    has the edit button next to an end date or a month count, and none has
    "Calculated" without them.  (The interest cells of a calculated row
    show what the engine stored, ['-'] where that is not positive.) *)
Theorem table_row_pending_or_calculated (es : list Event) (row : HistoryRow) :
  In row (loadHistory (run es)) ->
  (row_endDate row = None /\ row_months row = None
   /\ row_simpleInterest row = None /\ row_compoundInterest row = None
   /\ exists i, row_action row = EditButton i)
  \/ (exists (e : Date) (m : R),
        row_endDate row = Some e /\ row_months row = Some (Num m) /\ 0 < m
        /\ row_action row = CalculatedText).
Proof.
  unfold loadHistory. intros Hrow.
  apply in_map_iff in Hrow as (inv & <- & Hin).
  destruct (stored_record_invariants es inv Hin) as [Hd _].
  unfold derived_fields_together in Hd. unfold history_row.
  cbn [row_endDate row_months row_simpleInterest row_compoundInterest row_action].
  destruct (endDate inv) as [e |].
  - right. destruct Hd as (Hm & Hmonths & _).
    exists e, (monthsBetween (startDate inv) e).
    rewrite Hmonths, positive_or_dash_positive by assumption. auto.
  - left. destruct Hd as (-> & -> & -> & _).
    rewrite positive_or_dash_zero. eauto 10.
Qed.

Lemma table_row_pending_or_calculated_witness :
  (row_endDate (history_row Samples.savings_calculated) = None
   /\ row_months (history_row Samples.savings_calculated) = None
   /\ row_simpleInterest (history_row Samples.savings_calculated) = None
   /\ row_compoundInterest (history_row Samples.savings_calculated) = None
   /\ exists i, row_action (history_row Samples.savings_calculated) = EditButton i)
  \/ (exists (e : Date) (m : R),
        row_endDate (history_row Samples.savings_calculated) = Some e
        /\ row_months (history_row Samples.savings_calculated) = Some (Num m)
        /\ 0 < m
        /\ row_action (history_row Samples.savings_calculated) = CalculatedText).
Proof.
  apply (table_row_pending_or_calculated
           [Add Samples.savings_form 1 "t0"; Edit 1;
            Calculate (Some (mkDate 2024 4 1)) "t1"]).
  rewrite ScriptNewRuns.run_add_edit_calculate. now left.
Defined.

Lemma NoDup_firstn {A : Type} (n : nat) (l : list A) : NoDup l -> NoDup (firstn n l).
Proof.
  intros H. revert n. induction H as [| x l Hx H IH]; intros [| n]; cbn [firstn];
    try constructor.
  - intros Hin. apply Hx. now apply In_firstn in Hin.
  - apply IH.
Qed.

Lemma ids_from_add_times (es : list Event) :
  NoDup (add_times es) ->
  NoDup (map id (history (run es)))
  /\ incl (map id (history (run es))) (add_times es).
Proof.
  induction es as [| e es IH] using rev_ind.
  - intros _. split; [constructor | intros x []].
  - unfold add_times. rewrite flat_map_app. fold (add_times es). cbn [flat_map].
    rewrite app_nil_r, run_snoc. intros Hnd.
    destruct (IH (NoDup_app_remove_r _ _ Hnd)) as [Hids Hincl].
    assert (Hkeep : incl (map id (history (run es)))
                      (add_times es ++ match e with Add _ now _ => [now] | _ => [] end)).
    { intros x Hx. apply in_or_app. left. now apply Hincl. }
    destruct e as [f now nowStr | i | field nowStr |]; cbn [step].
    + destruct (addInvestment_cases f now nowStr (run es))
        as [[msg ->] | (p & r & d & Hn & Hp & Hp0 & Hr & Hr0 & Hd)];
        [now split |].
      rewrite (addInvestment_accepts f now nowStr (run es) p r d) by assumption.
      cbn [fst]. rewrite history_addToHistory. cbn [map id]. rewrite <- firstn_map.
      assert (Hnew : ~ In now (add_times es)).
      { pose proof (NoDup_remove_2 _ _ _ Hnd) as H. rewrite app_nil_r in H. exact H. }
      split.
      * constructor; [| now apply NoDup_firstn].
        intros Hin. apply In_firstn in Hin. now apply Hnew, Hincl.
      * intros x [<- | Hx]; apply in_or_app; [right; now left | left].
        apply In_firstn in Hx. now apply Hincl.
    + unfold editInvestment.
      destruct (find_investment i (history (run es))); now split.
    + destruct (calculateInterest_cases field nowStr (run es))
        as [[msg ->] | (cur & inv & d & _ & _ & _ & _ & _ & _ & ->)]; [now split |].
      cbn [fst history]. rewrite (map_update_first id) by reflexivity. now split.
    + cbn. split; [constructor | intros x []].
Qed.

(** X18.  When no two records are added at the same reading of the clock,
    the ids of the records of the history are pairwise distinct, so that
    [editInvestment] and [calculateInterest] reach the one record that has
    the id. *)
Theorem ids_are_distinct (es : list Event) :
  NoDup (add_times es) -> NoDup (map id (history (run es))).
Proof.
  intros H. now apply ids_from_add_times.
Qed.

Lemma ids_are_distinct_witness :
  NoDup (map id (history (run [Add Samples.savings_form 1 "t0";
                               Add Samples.savings_form 2 "t1"]))).
Proof.
  apply (ids_are_distinct [Add Samples.savings_form 1 "t0";
                           Add Samples.savings_form 2 "t1"]).
  cbn. constructor.
  - intros [H | []]. discriminate.
  - constructor; [intros [] | constructor].
Defined.

(** X19.  A principal or rate that the real-time validation marks as
    invalid is refused by [addInvestment], which then creates nothing. *)
Theorem marked_field_is_refused (f : Form) (now : Z) (nowStr : string) (st : App) :
  validateInput "principal" (form_principal f) = true
  \/ validateInput "rate" (form_rate f) = true ->
  exists msg, addInvestment f now nowStr st = (st, mkModal msg error).
Proof.
  intros Hmark.
  destruct (addInvestment_cases f now nowStr st)
    as [H | (p & r & d & _ & Hp & Hp0 & Hr & Hr0 & _)]; [exact H |].
  exfalso. unfold validateInput in Hmark. rewrite Hp, Hr in Hmark.
  cbn [String.eqb Ascii.eqb Bool.eqb andb] in Hmark.
  assert (H1 : (Num p <=? Num 0)%js = false) by (apply js_le_Num_false; lra).
  assert (H2 : (Num r <? Num 0)%js = false) by (apply js_lt_Num_false; lra).
  rewrite H1, H2 in Hmark. destruct Hmark; discriminate.
Qed.

Lemma marked_field_is_refused_witness :
  exists msg,
    addInvestment (mkForm "Savings" (Num (-5)) (Num 5) (Some (mkDate 2024 1 1)) "given")
      1 "t0" init
    = (init, mkModal msg error).
Proof.
  apply (marked_field_is_refused
           (mkForm "Savings" (Num (-5)) (Num 5) (Some (mkDate 2024 1 1)) "given")).
  left. unfold validateInput. cbn [form_principal String.eqb Ascii.eqb Bool.eqb andb].
  assert (H : (Num (-5) <=? Num 0)%js = true) by (apply js_le_Num; lra).
  now rewrite H.
Defined.

End ScriptNewRows.

(** ** The two-step form shell *)

Module ScriptLegacyFacts.
Import ScriptLegacy.

Lemma legacy_history_addToHistory (calculation : Calculation)
    (history : list Calculation) :
  addToHistory calculation history = calculation :: firstn 49 history.
Proof.
  unfold addToHistory.
  destruct (50 <? List.length (calculation :: history))%nat eqn:Hlen.
  - reflexivity.
  - apply Nat.ltb_ge in Hlen. cbn [List.length] in Hlen.
    rewrite firstn_all2 by lia. reflexivity.
Qed.

(** The two outcomes of [calculateInterest]. *)
Lemma legacy_calculateInterest_cases (f : Form) (endDateField : option Date)
    (now : Z) (nowStr : string) (history : list Calculation) :
  (exists msg,
      calculateInterest f endDateField now nowStr history
      = (history, mkModal msg error, None))
  \/ (exists e : Date,
        endDateField = Some e
        /\ end_before_start e (form_startDate f) = false
        /\ (monthsBetween_input (form_startDate f) e <=? Num 0)%js = false
        /\ let months := monthsBetween_input (form_startDate f) e in
           let r := interest (form_principal f) (form_rate f) months in
           calculateInterest f endDateField now nowStr history
           = (addToHistory
                (mkCalculation now (trim (form_name f)) (form_principal f) (form_rate f)
                   (form_startDate f) e months
                   (res_simpleInterest r) (res_compoundInterest r)
                   (res_totalSimple r) (res_totalCompound r) nowStr)
                history,
              mkModal "Interest calculation completed successfully!" success,
              Some r)).
Proof.
  unfold calculateInterest.
  destruct endDateField as [e |]; [| left; eauto].
  destruct (end_before_start e (form_startDate f)) eqn:Hlt; [left; eauto |].
  destruct (monthsBetween_input (form_startDate f) e <=? Num 0)%js eqn:Hm;
    [left; eauto |].
  right. exists e. auto.
Qed.

(** X20.  A calculation that the two-step shell refuses (an error message)
    leaves the history as it was and displays nothing. *)
Theorem legacy_refusal_changes_nothing (f : Form) (endDateField : option Date)
    (now : Z) (nowStr : string) (history : list Calculation) :
  modalType (snd (fst (calculateInterest f endDateField now nowStr history))) = error ->
  fst (fst (calculateInterest f endDateField now nowStr history)) = history
  /\ snd (calculateInterest f endDateField now nowStr history) = None.
Proof.
  destruct (legacy_calculateInterest_cases f endDateField now nowStr history)
    as [[msg ->] | (e & _ & _ & _ & ->)]; cbn [fst snd modalType].
  - auto.
  - discriminate.
Qed.

Lemma legacy_refusal_changes_nothing_witness :
  fst (fst (calculateInterest Samples.savings_form None 1 "t0" [])) = []
  /\ snd (calculateInterest Samples.savings_form None 1 "t0" []) = None.
Proof.
  apply (legacy_refusal_changes_nothing Samples.savings_form None 1 "t0" []).
  reflexivity.
Defined.

(** X21.  [calculateInterest] of the two-step shell checks the two dates
    and nothing else: with an end date that gives a positive span it stores
    a record first in the history for whatever name, principal and rate the
    form holds at that moment, and a principal that does not parse is
    stored as [NaN] together with four [NaN] results. *)
Theorem legacy_stores_unvalidated_fields (f : Form) (s e : Date) (now : Z)
    (nowStr : string) (history : list Calculation) :
  form_startDate f = Some s ->
  Date_lt e s = false -> 0 < monthsBetween s e ->
  exists c : Calculation,
    fst (fst (calculateInterest f (Some e) now nowStr history))
    = c :: firstn 49 history
    /\ name c = trim (form_name f)
    /\ principal c = form_principal f /\ rate c = form_rate f
    /\ months c = Num (monthsBetween s e)
    /\ (form_principal f = NaN ->
        simpleInterest c = NaN /\ compoundInterest c = NaN
        /\ totalSimple c = NaN /\ totalCompound c = NaN).
Proof.
  intros Hs Hlt Hm. unfold calculateInterest.
  rewrite Hs. cbn [end_before_start monthsBetween_input]. rewrite Hlt.
  apply js_le_Num_false in Hm. rewrite Hm. cbn [fst].
  rewrite legacy_history_addToHistory. eexists. split; [reflexivity |].
  cbn [name principal rate months simpleInterest compoundInterest
       totalSimple totalCompound].
  repeat (split; [reflexivity |]).
  intros ->. unfold interest. cbn. auto.
Qed.

Lemma legacy_stores_unvalidated_fields_witness :
  exists c : Calculation,
    fst (fst (calculateInterest
                (mkForm "" NaN (Num 5) (Some (mkDate 2024 1 1)) "")
                (Some (mkDate 2024 4 1)) 1 "t0" []))
    = c :: firstn 49 []
    /\ name c = trim ""
    /\ principal c = NaN /\ rate c = Num 5
    /\ months c = Num (monthsBetween (mkDate 2024 1 1) (mkDate 2024 4 1))
    /\ (NaN = NaN ->
        simpleInterest c = NaN /\ compoundInterest c = NaN
        /\ totalSimple c = NaN /\ totalCompound c = NaN).
Proof.
  apply (legacy_stores_unvalidated_fields
           (mkForm "" NaN (Num 5) (Some (mkDate 2024 1 1)) "")
           (mkDate 2024 1 1) (mkDate 2024 4 1) 1 "t0" []); try reflexivity.
  rewrite monthsBetween_three_months. lra.
Defined.

(** X22.  An empty start date is not refused either: every comparison with
    the invalid date is false, the month count is [NaN], the test
    [months <= 0] is false, and the record is stored with a [NaN] month
    count and four [NaN] results. *)
Theorem legacy_empty_start_date_stored (f : Form) (e : Date) (now : Z)
    (nowStr : string) (history : list Calculation) :
  form_startDate f = None ->
  exists c : Calculation,
    calculateInterest f (Some e) now nowStr history
    = (c :: firstn 49 history,
       mkModal "Interest calculation completed successfully!" success,
       Some (mkResults NaN NaN NaN NaN))
    /\ startDate c = None /\ months c = NaN
    /\ simpleInterest c = NaN /\ compoundInterest c = NaN
    /\ totalSimple c = NaN /\ totalCompound c = NaN.
Proof.
  intros Hs. unfold calculateInterest.
  rewrite Hs. cbn [end_before_start monthsBetween_input js_le].
  rewrite legacy_history_addToHistory.
  assert (Hint : interest (form_principal f) (form_rate f) NaN
                 = mkResults NaN NaN NaN NaN).
  { unfold interest. destruct (form_principal f), (form_rate f); reflexivity. }
  rewrite Hint. eexists. split; [reflexivity |]. cbn. auto 10.
Qed.

Lemma legacy_empty_start_date_stored_witness :
  exists c : Calculation,
    calculateInterest (mkForm "Savings" (Num 10000) (Num 5) None "")
      (Some (mkDate 2024 4 1)) 1 "t0" []
    = (c :: firstn 49 [],
       mkModal "Interest calculation completed successfully!" success,
       Some (mkResults NaN NaN NaN NaN))
    /\ startDate c = None /\ months c = NaN
    /\ simpleInterest c = NaN /\ compoundInterest c = NaN
    /\ totalSimple c = NaN /\ totalCompound c = NaN.
Proof.
  apply (legacy_empty_start_date_stored
           (mkForm "Savings" (Num 10000) (Num 5) None "") (mkDate 2024 4 1) 1 "t0" []).
  reflexivity.
Defined.

(** X23.  After a form that passed [validateStepOne], a calculation that
    succeeds evaluates the formulas on the positive principal and the
    positive rate of the form and on a positive month count: the results
    displayed and stored are those of the engine at these three numbers,
    none of which is [NaN]. *)
Theorem legacy_validated_form_gives_numbers (f : Form) (endDateField : option Date)
    (now : Z) (nowStr : string) (history : list Calculation) (res : Results) :
  fst (validateStepOne f) = true ->
  snd (calculateInterest f endDateField now nowStr history) = Some res ->
  exists p r m : R,
    form_principal f = Num p /\ form_rate f = Num r
    /\ 0 < p /\ 0 < r /\ 0 < m
    /\ res = interest (Num p) (Num r) (Num m).
Proof.
  intros Hv Hres.
  apply validateStepOne_accepts in Hv as (p & r & d & _ & Hp & Hp0 & Hr & Hr0 & Hd).
  destruct (legacy_calculateInterest_cases f endDateField now nowStr history)
    as [[msg H] | (e & _ & _ & Hm & H)]; rewrite H in Hres; [discriminate |].
  cbn [snd] in Hres. injection Hres as <-.
  rewrite Hd in Hm |- *. cbn [monthsBetween_input] in Hm |- *.
  apply js_le_Num_false in Hm. rewrite Hp, Hr.
  exists p, r, (monthsBetween d e). auto 10.
Qed.

Lemma legacy_validated_form_gives_numbers_witness :
  exists p r m : R,
    form_principal Samples.savings_form = Num p
    /\ form_rate Samples.savings_form = Num r
    /\ 0 < p /\ 0 < r /\ 0 < m
    /\ interest (Num 10000) (Num 5)
         (Num (monthsBetween (mkDate 2024 1 1) (mkDate 2024 4 1)))
       = interest (Num p) (Num r) (Num m).
Proof.
  apply (legacy_validated_form_gives_numbers Samples.savings_form
           (Some (mkDate 2024 4 1)) 1 "t0" []).
  - apply validateStepOne_accepts. exists 10000, 5, (mkDate 2024 1 1).
    repeat split; try reflexivity; lra.
  - unfold calculateInterest.
    cbn [Samples.savings_form form_startDate form_principal form_rate
         end_before_start monthsBetween_input].
    replace (Date_lt (mkDate 2024 4 1) (mkDate 2024 1 1)) with false by reflexivity.
    assert (Hm : (Num (monthsBetween (mkDate 2024 1 1) (mkDate 2024 4 1)) <=? Num 0)%js
                 = false).
    { apply js_le_Num_false. rewrite monthsBetween_three_months. lra. }
    rewrite Hm. reflexivity.
Defined.

(** X24.  While the calculate button is visible, the handler of a change
    of the start date leaves an end date that is not before the start date,
    so that [calculateInterest] never answers that the ending date must be
    on or after the start date. *)
Theorem start_change_keeps_range (f : Form) (endField : option Date) (now : Z)
    (nowStr : string) (history : list Calculation) :
  message (snd (fst (calculateInterest f
                       (startDateChanged true (form_startDate f) endField)
                       now nowStr history)))
  <> "Ending date must be on or after the start date."%string.
Proof.
  unfold startDateChanged, calculateInterest.
  destruct endField as [e |]; [| discriminate].
  destruct (end_before_start e (form_startDate f)) eqn:Hlt.
  - destruct (form_startDate f) as [s |]; [| discriminate].
    cbn [end_before_start monthsBetween_input]. rewrite Date_lt_irrefl.
    destruct (Num (monthsBetween s s) <=? Num 0)%js; discriminate.
  - rewrite Hlt.
    destruct (monthsBetween_input (form_startDate f) e <=? Num 0)%js; discriminate.
Qed.

End ScriptLegacyFacts.

(** ** The database-backed shell: deletion and the combined results *)

Module ScriptDbHistory.
Import ScriptDb.

Lemma find_after_filter (i j : Z) (h : list Investment) :
  find_investment j (filter (fun inv => negb (id inv =? i)%Z) h)
  = if (j =? i)%Z then None else find_investment j h.
Proof.
  unfold find_investment. induction h as [| x h IH]; cbn [filter List.find].
  - now destruct (j =? i)%Z.
  - destruct (id x =? i)%Z eqn:Hxi; cbn [negb].
    + rewrite IH. destruct (j =? i)%Z eqn:Hji; [reflexivity |].
      apply Z.eqb_eq in Hxi. apply Z.eqb_neq in Hji.
      replace (id x =? j)%Z with false; [reflexivity |].
      symmetry. apply Z.eqb_neq. congruence.
    + cbn [List.find]. rewrite IH.
      destruct (id x =? j)%Z eqn:Hxj; [| reflexivity].
      apply Z.eqb_eq in Hxj. apply Z.eqb_neq in Hxi.
      replace (j =? i)%Z with false; [reflexivity |].
      symmetry. apply Z.eqb_neq. congruence.
Qed.

(** X25.  After a deletion that was confirmed and that the server accepted,
    no record of the local history has the deleted id, and the lookup of
    every other id gives what it gave before; a deletion that was declined
    or that failed changes nothing; the selection is never touched. *)
Theorem lookup_after_delete (i j : Z) (confirmed ok : bool) (st : App) :
  find_investment j (history (deleteInvestment i confirmed ok st))
  = (if confirmed && ok && (j =? i)%Z then None else find_investment j (history st))
  /\ currentEditId (deleteInvestment i confirmed ok st) = currentEditId st
  /\ (confirmed && ok = false -> deleteInvestment i confirmed ok st = st).
Proof.
  unfold deleteInvestment. destruct (confirmed && ok); cbn [history currentEditId andb].
  - split; [apply find_after_filter | split; [reflexivity | discriminate]].
  - auto.
Qed.

(** X26.  Deleting the record that is selected for editing does not clear
    the selection: the calculation that follows finds no record, shows
    "Investment not found." and sends no request. *)
Theorem calculate_after_delete (i : Z) (e : Date) (interestType nowIso : string)
    (st : App) (inv : Investment) :
  i <> 0%Z ->
  find_investment i (history st) = Some inv ->
  calculateInterest (Some e) interestType nowIso
    (deleteInvestment i true true (editInvestment i st))
  = CalcRejected (mkModal "Investment not found." error).
Proof.
  intros Hi Hf. unfold editInvestment. rewrite Hf.
  unfold deleteInvestment, calculateInterest. cbn [andb history currentEditId].
  apply Z.eqb_neq in Hi. rewrite Hi, find_after_filter, Z.eqb_refl. reflexivity.
Qed.

Lemma calculate_after_delete_witness :
  calculateInterest (Some (mkDate 2024 4 1)) "given" "t1"
    (deleteInvestment 7 true true (editInvestment 7 Samples.db_page))
  = CalcRejected (mkModal "Investment not found." error).
Proof.
  apply (calculate_after_delete 7 (mkDate 2024 4 1) "given" "t1" Samples.db_page
           Samples.db_pending).
  - discriminate.
  - reflexivity.
Defined.

Lemma js_or_zero (s : R) : js_or (parseFloat (Num s)) (Num 0) = Num s.
Proof.
  unfold js_or, parseFloat, js_not.
  destruct (Req_dec_T s 0) as [-> | _]; reflexivity.
Qed.

Lemma js_or_pending (v d : number) : js_not v = true -> js_or (parseFloat v) d = d.
Proof.
  intros H. unfold js_or, parseFloat. rewrite H. reflexivity.
Qed.

Lemma js_or_principal (v d : number) :
  v = d \/ js_not v = true -> js_or (parseFloat v) d = d.
Proof.
  intros [-> | H]; [| now apply js_or_pending].
  unfold js_or, parseFloat. now destruct (js_not d).
Qed.

Lemma pending_sums_from (h : list Investment) (t : Totals) :
  Forall (fun inv =>
            js_not (simple_interest inv) = true
            /\ js_not (compound_interest inv) = true
            /\ (total_simple inv = principal inv \/ js_not (total_simple inv) = true)
            /\ (total_compound inv = principal inv
                \/ js_not (total_compound inv) = true)) h ->
  totalSimpleInterest t = Num 0 -> totalCompoundInterest t = Num 0 ->
  totalSimple t = totalPrincipal t -> totalCompound t = totalPrincipal t ->
  totalSimpleInterest (fold_left add_investment h t) = Num 0
  /\ totalCompoundInterest (fold_left add_investment h t) = Num 0
  /\ totalSimple (fold_left add_investment h t)
     = totalPrincipal (fold_left add_investment h t)
  /\ totalCompound (fold_left add_investment h t)
     = totalPrincipal (fold_left add_investment h t).
Proof.
  intros Hall. revert t.
  induction Hall as [| inv h (Hs & Hc & Hts & Htc) _ IH];
    intros t HS HC HTS HTC; cbn [fold_left].
  - auto.
  - apply IH; unfold add_investment;
      cbn [totalPrincipal totalSimpleInterest totalCompoundInterest totalSimple
           totalCompound].
    + rewrite HS, js_or_pending by assumption. cbn [js_add lift2]. f_equal. lra.
    + rewrite HC, js_or_pending by assumption. cbn [js_add lift2]. f_equal. lra.
    + rewrite HTS, js_or_principal by assumption. reflexivity.
    + rewrite HTC, js_or_principal by assumption. reflexivity.
Qed.

(** X27.  While no record of the history has been calculated (its two
    interests are zero or absent and each of its totals is its principal or
    absent), every record counts in the combined results for its principal
    and nothing else: both combined interests are [0], and the combined
    simple total (shown as the total amount as well) and the combined
    compound total are the combined principal, the same additions of the
    same numbers in the same order. *)
Theorem pending_records_count_their_principal (st : App) :
  Forall (fun inv =>
            js_not (simple_interest inv) = true
            /\ js_not (compound_interest inv) = true
            /\ (total_simple inv = principal inv \/ js_not (total_simple inv) = true)
            /\ (total_compound inv = principal inv
                \/ js_not (total_compound inv) = true)) (history st) ->
  totalSimpleInterest (updateResultsForAllInvestments st) = Num 0
  /\ totalCompoundInterest (updateResultsForAllInvestments st) = Num 0
  /\ totalSimple (updateResultsForAllInvestments st)
     = totalPrincipal (updateResultsForAllInvestments st)
  /\ totalCompound (updateResultsForAllInvestments st)
     = totalPrincipal (updateResultsForAllInvestments st).
Proof.
  intros Hall. unfold updateResultsForAllInvestments.
  apply (pending_sums_from _ _ Hall); reflexivity.
Qed.

Lemma pending_records_count_their_principal_witness :
  totalSimpleInterest (updateResultsForAllInvestments Samples.db_two_pending) = Num 0
  /\ totalCompoundInterest (updateResultsForAllInvestments Samples.db_two_pending)
     = Num 0
  /\ totalSimple (updateResultsForAllInvestments Samples.db_two_pending)
     = totalPrincipal (updateResultsForAllInvestments Samples.db_two_pending)
  /\ totalCompound (updateResultsForAllInvestments Samples.db_two_pending)
     = totalPrincipal (updateResultsForAllInvestments Samples.db_two_pending).
Proof.
  apply (pending_records_count_their_principal Samples.db_two_pending).
  assert (H0 : js_not (Num 0) = true) by now apply js_not_Num.
  unfold Samples.db_two_pending, Samples.db_deposit, Samples.db_pending.
  cbn [history].
  constructor; [| constructor; [| constructor]];
    cbn [simple_interest compound_interest total_simple total_compound principal];
    auto.
Defined.

(** The combined principal of these two pending records, 10000 and 2500. *)
Example combined_principal_of_two_pending :
  totalPrincipal (updateResultsForAllInvestments Samples.db_two_pending) = Num 12500.
Proof.
  unfold updateResultsForAllInvestments, Samples.db_two_pending.
  cbn [history fold_left]. unfold add_investment, Samples.db_deposit,
    Samples.db_pending.
  cbn [principal totalPrincipal js_add lift2]. f_equal. lra.
Qed.

(** Once a record is calculated its stored total takes the place of its
    principal: for a calculated record (2000, simple interest 300, total
    2300) and a pending one (10000) the page shows a combined simple
    interest of 300 and a combined total of 12300 for 12000 of principal. *)
Example combined_total_of_two_records :
  totalPrincipal (updateResultsForAllInvestments Samples.db_two_records) = Num 12000
  /\ totalSimpleInterest (updateResultsForAllInvestments Samples.db_two_records)
     = Num 300
  /\ totalSimple (updateResultsForAllInvestments Samples.db_two_records) = Num 12300.
Proof.
  unfold updateResultsForAllInvestments, Samples.db_two_records.
  cbn [history fold_left]. unfold add_investment, Samples.db_calculated,
    Samples.db_pending.
  cbn [simple_interest compound_interest total_simple total_compound principal
       totalSimpleInterest totalCompoundInterest totalSimple totalCompound
       totalPrincipal].
  rewrite !js_or_zero.
  assert (H1 : js_or (parseFloat (Num 2300)) (Num 2000) = Num 2300).
  { unfold js_or, parseFloat. replace (js_not (Num 2300)) with false; [reflexivity |].
    symmetry. apply js_not_Num_false. lra. }
  assert (H2 : js_or (parseFloat (Num 10000)) (Num 10000) = Num 10000).
  { unfold js_or, parseFloat. now destruct (js_not (Num 10000)). }
  rewrite H1, H2. cbn [js_add lift2]. repeat split; f_equal; lra.
Qed.

End ScriptDbHistory.
